(** * Lobo: trade-activity analyzer and combined stream runner

    A shallow embedding of
      - [lob_analyzer/analyzer/trade_activity_analyzer.py] (class
        [TradeActivityAnalyzer]) and
      - [lob_analyzer/runner.py] (class [CombinedStreamRunner]),
    followed by the properties of the two classes that the specification
    states.

    Conventions of the embedding.
      - Python numbers are exact rationals ([Q]).  Comparisons are the boolean
        ones the interpreter evaluates; [x == 0] is [Qeq_bool x 0], so that
        truthiness of a number does not depend on how the rational is written.
      - A dict of numeric features (a trade aggregate, an order-book feature
        event) is a [gmap string Q]; [d.get(k, v)] is [default v (d !! k)].
      - The file system is a finite map from paths to file contents; opening
        a file and writing to it succeed.
      - A callback is a function of the world it closes over; it returns
        normally or raises.  What a method does to the outside is recorded
        in a list of actions, in program order. *)

From Stdlib Require Import QArith Lqa String.
From stdpp Require Import base gmap strings list.

Local Open Scope string_scope.
Local Open Scope Q_scope.
Local Open Scope list_scope.

(** ** Python values *)

(** [a > b] and [a < b] on numbers. *)
Definition Qgtb (a b : Q) : bool := negb (Qle_bool a b).
Definition Qltb (a b : Q) : bool := Qgtb b a.

(** Truth value of a number, of an optional number and of a string:
    [None], zero and the empty string are falsy. *)
Definition truthy (x : Q) : bool := negb (Qeq_bool x 0).

Definition truthy_opt (x : option Q) : bool :=
  match x with
  | Some v => truthy v
  | None => false
  end.

Definition truthy_str (s : string) : bool :=
  match s with
  | EmptyString => false
  | String _ _ => true
  end.

(** The newline character written after every audit record. *)
Definition newline : string := String (Ascii.ascii_of_nat 10) EmptyString.

(** A dict with numeric values. *)
Abbreviation dict := (gmap string Q).

(** [{**base, **upd}]: the keys of [upd] override those of [base]. *)
Definition dict_update (base upd : dict) : dict := upd ∪ base.

(** ** Files *)

Abbreviation files := (gmap string string).

(** [os.path.exists(path)] *)
Definition path_exists (fs : files) (path : string) : bool :=
  bool_decide (is_Some (fs !! path)).

(** [with open(path, "w") as f: pass] creates the file or empties it. *)
Definition open_w (fs : files) (path : string) : files :=
  <[path := EmptyString]> fs.

(** [with open(path, "a") as f: f.write(text)] creates the file when it is
    absent and writes at its end. *)
Definition open_a_write (fs : files) (path text : string) : files :=
  <[path := default EmptyString (fs !! path) +:+ text]> fs.

(** ** trade_activity_analyzer.py *)

Module TradeActivityAnalyzer.

(** The dict [spike_data] built by [process_event], one field per key. *)
Record SpikeData := {
  sd_ts : Q;
  sd_type : string;
  sd_buy_volume : Q;
  sd_sell_volume : Q;
  sd_buy_sell_ratio : Q;
  sd_avg_price : Q;
  sd_trade_count : Q;
  sd_ma_volume : Q;
  sd_direction : string;
  sd_reason : string
}.

Inductive cb_result := Returns | Raises.

(** A registered callback acts on the world [W] it closes over and is handed
    the event as a value.  What a callback does beyond that (to files, to
    the dict object it is given) is not part of the model, nor are the sinks
    of the logger: the file map below records what the analyzer itself
    opens. *)
Definition Callback (W : Type) : Type := SpikeData -> W -> W * cb_result.

Record t (W : Type) := {
  volume_threshold : Q;
  imbalance_ratio_high : Q;
  imbalance_ratio_low : Q;
  spike_multiplier : Q;
  enable_logging : bool;
  save_path : string;
  callbacks : list (Callback W)
}.
Arguments volume_threshold {W} _.
Arguments imbalance_ratio_high {W} _.
Arguments imbalance_ratio_low {W} _.
Arguments spike_multiplier {W} _.
Arguments enable_logging {W} _.
Arguments save_path {W} _.
Arguments callbacks {W} _.

(** What [process_event] does to the outside, in program order. *)
Inductive action :=
| FileAppend (path text : string)      (* open(path, "a") ... f.write(text) *)
| Invoke (i : nat) (d : SpikeData)     (* the i-th callback is called on d *)
| LogWarning (d : SpikeData).          (* logger.warning("ACTIVITY SPIKE: ...") *)

(** Defaults of the constructor's keyword arguments. *)
Definition default_volume_threshold : Q := 10.
Definition default_imbalance_ratio_high : Q := 2.
Definition default_imbalance_ratio_low : Q := 1 # 2.
Definition default_spike_multiplier : Q := 6 # 5.
Definition default_save_path : string := "activity_spikes.jsonl".

(** [__init__] *)
Definition init {W} (volume_threshold imbalance_ratio_high
                     imbalance_ratio_low spike_multiplier : Q)
    (enable_logging : bool) (save_path : string) (fs : files) : t W * files :=
  let self := {| volume_threshold := volume_threshold;
                 imbalance_ratio_high := imbalance_ratio_high;
                 imbalance_ratio_low := imbalance_ratio_low;
                 spike_multiplier := spike_multiplier;
                 enable_logging := enable_logging;
                 save_path := save_path;
                 callbacks := [] |} in
  if truthy_str save_path && negb (path_exists fs save_path)
  then (self, open_w fs save_path)
  else (self, fs).

(** [on_activity] *)
Definition on_activity {W} (self : t W) (callback : Callback W) : t W :=
  {| volume_threshold := volume_threshold self;
     imbalance_ratio_high := imbalance_ratio_high self;
     imbalance_ratio_low := imbalance_ratio_low self;
     spike_multiplier := spike_multiplier self;
     enable_logging := enable_logging self;
     save_path := save_path self;
     callbacks := callbacks self ++ [callback] |}.

(** The local variables of [process_event], as functions of the event. *)
Definition buy_volume (event : dict) : Q := default 0 (event !! "buy_volume").
Definition sell_volume (event : dict) : Q := default 0 (event !! "sell_volume").
Definition total_volume (event : dict) : Q := buy_volume event + sell_volume event.
Definition ma_volume (event : dict) : Q :=
  default 0 (event !! "buy_mean") + default 0 (event !! "sell_mean").

Definition spike {W} (self : t W) (event : dict) : bool :=
  Qgtb (ma_volume event) 0
  && Qgtb (total_volume event / ma_volume event) (spike_multiplier self).

Definition sentinel_ratio : Q := 1000000.

Definition buy_sell_ratio (event : dict) : Q :=
  if Qgtb (sell_volume event) 0 then buy_volume event / sell_volume event
  else if Qgtb (buy_volume event) 0 then sentinel_ratio
  else 1.

Definition imbalance {W} (self : t W) (event : dict) : bool :=
  Qgtb (buy_sell_ratio event) (imbalance_ratio_high self)
  || Qltb (buy_sell_ratio event) (imbalance_ratio_low self).

Definition volume_exceeded {W} (self : t W) (event : dict) : bool :=
  Qgtb (total_volume event) (volume_threshold self).

Definition direction (event : dict) : string :=
  if Qgtb (buy_sell_ratio event) 1 then "buy" else "sell".

Definition reason {W} (self : t W) (event : dict) : string :=
  if spike self event then "spike"
  else if imbalance self event then "imbalance"
  else "volume_exceeded".

(** The dict literal [spike_data]; [now] is [event.get('ts', time.time())]. *)
Definition spike_data {W} (self : t W) (time_time : Q) (event : dict) : SpikeData :=
  let now := default time_time (event !! "ts") in
  {| sd_ts := now;
     sd_type := "trade_activity_spike";
     sd_buy_volume := buy_volume event;
     sd_sell_volume := sell_volume event;
     sd_buy_sell_ratio := buy_sell_ratio event;
     sd_avg_price := default 0 (event !! "avg_price");
     sd_trade_count := default 0 (event !! "trade_count");
     sd_ma_volume := ma_volume event;
     sd_direction := direction event;
     sd_reason := reason self event |}.

(** [for cb in self.callbacks: cb(spike_data)]; the loop ends at the first
    callback that raises.  [i] is the position of the head of [cbs] in the
    registration list. *)
Fixpoint run_callbacks {W} (cbs : list (Callback W)) (i : nat)
    (d : SpikeData) (w : W) : W * list action * cb_result :=
  match cbs with
  | [] => (w, [], Returns)
  | cb :: rest =>
      let '(w1, r) := cb d w in
      match r with
      | Raises => (w1, [Invoke i d], Raises)
      | Returns =>
          let '(w2, tr, r2) := run_callbacks rest (S i) d w1 in
          (w2, Invoke i d :: tr, r2)
      end
  end.

(** Result of one call of [process_event]. *)
Record result (W : Type) := {
  out_files : files;
  out_world : W;
  trace : list action;
  emitted : option SpikeData;   (* the [spike_data] dict, when one is built *)
  outcome : cb_result           (* [Raises] when a callback's exception escapes *)
}.
Arguments out_files {W} _.
Arguments out_world {W} _.
Arguments trace {W} _.
Arguments emitted {W} _.
Arguments outcome {W} _.

Section ProcessEvent.
Context {W : Type}.
(** [json.dumps(spike_data, ensure_ascii=False)] *)
Variable json_dumps : SpikeData -> string.

(** [process_event]; [time_time] is the value [time.time()] has when the
    method is entered. *)
Definition process_event (self : t W) (time_time : Q) (event : dict)
    (fs : files) (w : W) : result W :=
  if Qeq_bool (total_volume event) 0 then
    {| out_files := fs; out_world := w; trace := [];
       emitted := None; outcome := Returns |}
  else if spike self event || imbalance self event || volume_exceeded self event then
    let spike_data := spike_data self time_time event in
    let '(fs1, tr1) :=
      if truthy_str (save_path self)
      then (open_a_write fs (save_path self) (json_dumps spike_data +:+ newline),
            [FileAppend (save_path self) (json_dumps spike_data +:+ newline)])
      else (fs, []) in
    let '(w1, tr2, r) := run_callbacks (callbacks self) 0%nat spike_data w in
    match r with
    | Raises =>
        {| out_files := fs1; out_world := w1; trace := tr1 ++ tr2;
           emitted := Some spike_data; outcome := Raises |}
    | Returns =>
        {| out_files := fs1; out_world := w1;
           trace := tr1 ++ tr2 ++
                    (if enable_logging self then [LogWarning spike_data] else []);
           emitted := Some spike_data; outcome := Returns |}
    end
  else
    {| out_files := fs; out_world := w; trace := [];
       emitted := None; outcome := Returns |}.
End ProcessEvent.

End TradeActivityAnalyzer.

(** ** runner.py *)

Module CombinedStreamRunner.

Import TradeActivityAnalyzer.

(** Modelled from the spec: the class [RealTimeOrderBook]
    (collector/orderbook_realtime.py) is not among the sources.  The record
    holds what its accessors return when an update handler reads them:
    [get_mid_price()] is absent when a side of the book is empty,
    [get_imbalance()] is the triple (ratio, bid volume, ask volume),
    [get_near_price_volume()] is a dict of near-touch volumes. *)
Record RealTimeOrderBook := {
  get_mid_price : option Q;
  get_imbalance : Q * Q * Q;
  get_near_price_volume : dict;
  last_update_ts : Q
}.

(** Modelled from the spec: the class [ModelRunner] (ml/model_runner.py) is
    not among the sources.  [predict] returns either [{direction,
    confidence}] or [{error}]. *)
Inductive prediction :=
| PredOk (direction : string) (confidence : Q)
| PredError (error : string).

Record ModelRunner := { predict : dict -> prediction }.

(** A Python exception object (an instance of [Exception]). *)
Inductive exn := Exception (msg : string).

Inductive component := Orderbook | Trades | Merger.

(** [asyncio.create_task(c.run())] *)
Record Task := { coro : component }.

Inductive level := INFO | WARNING | ERROR | CRITICAL.

(** The bound methods that [_setup_callbacks] hands to the components. *)
Inductive handler :=
| handle_orderbook_update
| signal_detector_process_orderbook
| handle_signal
| merger_add_trade
| handle_trade_aggregate
| activity_analyzer_process_event
| handle_inference.

(** What the runner does to its components and to the log, in program
    order.  A [Log] carries the constant part of the message. *)
Inductive action :=
| Log (l : level) (msg : string)
| MergerAddOrderbook (event : dict)               (* self.merger.add_orderbook(event) *)
| Predict (merged_record : dict)                  (* self.model_runner.predict(...) *)
| CreateTask (c : component)                      (* asyncio.create_task(c.run()) *)
| GatherStop (cs : list component)                (* await asyncio.gather(c.stop() ..., return_exceptions=True) *)
| AwaitStop (c : component) (r : cb_result)       (* await c.stop(), and how it ended *)
| Cancel (i : nat)                                (* self.tasks[i].cancel() *)
| GatherTasks (ts : list Task).                   (* await asyncio.gather( *self.tasks, return_exceptions=True) *)

(** The fields of a [CombinedStreamRunner] that are plain data. *)
Record t := {
  symbol : string;
  tasks : list Task;
  _running : bool;
  model_runner : option ModelRunner;
  _last_activity_spike_ts : option Q;
  _activity_spike_ttl : Q;
  _latest_trade_agg : dict
}.

Definition set_tasks (self : t) (v : list Task) : t :=
  {| symbol := symbol self; tasks := v; _running := _running self;
     model_runner := model_runner self;
     _last_activity_spike_ts := _last_activity_spike_ts self;
     _activity_spike_ttl := _activity_spike_ttl self;
     _latest_trade_agg := _latest_trade_agg self |}.

Definition set__running (self : t) (v : bool) : t :=
  {| symbol := symbol self; tasks := tasks self; _running := v;
     model_runner := model_runner self;
     _last_activity_spike_ts := _last_activity_spike_ts self;
     _activity_spike_ttl := _activity_spike_ttl self;
     _latest_trade_agg := _latest_trade_agg self |}.

Definition set_model_runner (self : t) (v : option ModelRunner) : t :=
  {| symbol := symbol self; tasks := tasks self; _running := _running self;
     model_runner := v;
     _last_activity_spike_ts := _last_activity_spike_ts self;
     _activity_spike_ttl := _activity_spike_ttl self;
     _latest_trade_agg := _latest_trade_agg self |}.

Definition set__last_activity_spike_ts (self : t) (v : option Q) : t :=
  {| symbol := symbol self; tasks := tasks self; _running := _running self;
     model_runner := model_runner self;
     _last_activity_spike_ts := v;
     _activity_spike_ttl := _activity_spike_ttl self;
     _latest_trade_agg := _latest_trade_agg self |}.

Definition set__latest_trade_agg (self : t) (v : dict) : t :=
  {| symbol := symbol self; tasks := tasks self; _running := _running self;
     model_runner := model_runner self;
     _last_activity_spike_ts := _last_activity_spike_ts self;
     _activity_spike_ttl := _activity_spike_ttl self;
     _latest_trade_agg := v |}.

(** The runner together with the objects it owns whose state it changes:
    the activity analyzer (whose callbacks close over the runner, hence
    kept beside it), the merger's [model_runner] attribute and the
    observer lists of the components. *)
Record Pipeline := {
  runner : t;
  activity_analyzer : TradeActivityAnalyzer.t t;
  merger_model_runner : option ModelRunner;
  orderbook_on_update : list handler;
  signal_detector_on_signal : list handler;
  trades_on_raw_trade : list handler;
  trades_on_trade_aggregate : list handler;
  merger_on_merge : list handler
}.

Definition set_runner (p : Pipeline) (v : t) : Pipeline :=
  {| runner := v; activity_analyzer := activity_analyzer p;
     merger_model_runner := merger_model_runner p;
     orderbook_on_update := orderbook_on_update p;
     signal_detector_on_signal := signal_detector_on_signal p;
     trades_on_raw_trade := trades_on_raw_trade p;
     trades_on_trade_aggregate := trades_on_trade_aggregate p;
     merger_on_merge := merger_on_merge p |}.

(** [__init__]; [ModelRunner_new path] is the outcome of the constructor
    call [ModelRunner(path)].  The constructors of the order book, the trades
    stream, the merger and the signal detector are outside the model: of
    these objects only the observer lists and the merger's [model_runner]
    are represented, and the file map is the analyzer's. *)
Definition init (ModelRunner_new : string -> ModelRunner + exn)
    (symbol : string) (model_path : option string) (fs : files)
    : Pipeline * files * list action :=
  let '(analyzer, fs1) :=
    TradeActivityAnalyzer.init default_volume_threshold
      default_imbalance_ratio_high default_imbalance_ratio_low
      default_spike_multiplier false default_save_path fs in
  let self := {| symbol := symbol; tasks := []; _running := false;
                 model_runner := None;
                 _last_activity_spike_ts := None;
                 _activity_spike_ttl := 1;
                 _latest_trade_agg := ∅ |} in
  let p := {| runner := self; activity_analyzer := analyzer;
              merger_model_runner := None;
              orderbook_on_update := []; signal_detector_on_signal := [];
              trades_on_raw_trade := []; trades_on_trade_aggregate := [];
              merger_on_merge := [] |} in
  match model_path with
  | Some path =>
      if truthy_str path then
        match ModelRunner_new path with
        | inl mr =>
            ({| runner := set_model_runner self (Some mr);
                activity_analyzer := analyzer;
                merger_model_runner := Some mr;
                orderbook_on_update := []; signal_detector_on_signal := [];
                trades_on_raw_trade := []; trades_on_trade_aggregate := [];
                merger_on_merge := [] |}, fs1, [])
        | inr _ =>
            (p, fs1,
             [Log ERROR "Failed to initialize ModelRunner. Continuing without inference."])
        end
      else (p, fs1, [])
  | None => (p, fs1, [])
  end.

(** [_handle_trade_aggregate] *)
Definition _handle_trade_aggregate (self : t) (agg_data : dict) : t :=
  set__latest_trade_agg self agg_data.

(** [_handle_orderbook_update]; [time_time] is the value of [time.time()]. *)
Definition _handle_orderbook_update (self : t) (ob : RealTimeOrderBook)
    (time_time : Q) : t * list action :=
  match get_mid_price ob with
  | None => (self, [])
  | Some mid_price =>
      if negb (truthy mid_price) then (self, [])
      else
        let '(imbalance, bid_vol, ask_vol) := get_imbalance ob in
        let near_price_volume := get_near_price_volume ob in
        let now := time_time in
        let recent :=
          match _last_activity_spike_ts self with
          | Some ts => truthy ts && Qltb (now - ts) (_activity_spike_ttl self)
          | None => false
          end in
        let activity_spike_feature : Q := if recent then 1 else 0 in
        let self1 :=
          if recent then self else set__last_activity_spike_ts self None in
        let event :=
          dict_update
            (dict_update
               (<["activity_spike" := activity_spike_feature]>
                (<["ask_volume" := ask_vol]>
                 (<["bid_volume" := bid_vol]>
                  (<["imbalance" := imbalance]>
                   (<["mid_price" := mid_price]>
                    (<["ts" := last_update_ts ob]> ∅))))))
               near_price_volume)
            (_latest_trade_agg self1) in
        (self1, [MergerAddOrderbook event])
  end.

(** [_handle_signal] *)
Definition _handle_signal (self : t) : list action :=
  [Log CRITICAL "SIGNAL DETECTED"].

(** [_handle_activity_spike] *)
Definition _handle_activity_spike (self : t) (spike_data : SpikeData)
    : t * list action :=
  (set__last_activity_spike_ts self (Some (sd_ts spike_data)),
   [Log WARNING "ACTIVITY SPIKE DETECTED"]).

(** [_handle_inference]; a [ModelRunner] object is truthy.  The success
    message formats [merged_record['ts']], a [KeyError] when absent. *)
Definition _handle_inference (self : t) (merged_record : dict)
    : list action * cb_result :=
  match model_runner self with
  | None => ([], Returns)
  | Some mr =>
      match predict mr merged_record with
      | PredOk _ _ =>
          match merged_record !! "ts" with
          | Some _ => ([Predict merged_record; Log INFO "PREDICTION"], Returns)
          | None => ([Predict merged_record], Raises)
          end
      | PredError _ =>
          ([Predict merged_record; Log WARNING "PREDICTION FAILED"], Returns)
      end
  end.

(** The closure [self._handle_activity_spike] as an analyzer callback. *)
Definition activity_spike_callback : Callback t :=
  fun d self => (fst (_handle_activity_spike self d), Returns).

(** [_setup_callbacks] *)
Definition _setup_callbacks (p : Pipeline) : Pipeline * list action :=
  let ob1 := orderbook_on_update p ++ [handle_orderbook_update] in
  let ob2 := ob1 ++ [signal_detector_process_orderbook] in
  let sig1 := signal_detector_on_signal p ++ [handle_signal] in
  let raw1 := trades_on_raw_trade p ++ [merger_add_trade] in
  let agg1 := trades_on_trade_aggregate p ++ [handle_trade_aggregate] in
  let agg2 := agg1 ++ [activity_analyzer_process_event] in
  let analyzer1 := on_activity (activity_analyzer p) activity_spike_callback in
  let log1 := [Log INFO "Stream callbacks configured to feed the merger and analyzers."] in
  match model_runner (runner p) with
  | Some _ =>
      ({| runner := runner p; activity_analyzer := analyzer1;
          merger_model_runner := merger_model_runner p;
          orderbook_on_update := ob2; signal_detector_on_signal := sig1;
          trades_on_raw_trade := raw1; trades_on_trade_aggregate := agg2;
          merger_on_merge := merger_on_merge p ++ [handle_inference] |},
       log1 ++ [Log INFO "Callbacks for inference are set up."])
  | None =>
      ({| runner := runner p; activity_analyzer := analyzer1;
          merger_model_runner := merger_model_runner p;
          orderbook_on_update := ob2; signal_detector_on_signal := sig1;
          trades_on_raw_trade := raw1; trades_on_trade_aggregate := agg2;
          merger_on_merge := merger_on_merge p |},
       log1)
  end.

(** [run], up to its keep-alive loop [while self._running: await
    asyncio.sleep(1)]. *)
Definition run (p : Pipeline) : Pipeline * list action :=
  if _running (runner p) then (p, [Log WARNING "Runner is already running."])
  else
    let p1 := set_runner p (set__running (runner p) true) in
    let '(p2, tr) := _setup_callbacks p1 in
    let ts := [ {| coro := Orderbook |}; {| coro := Trades |}; {| coro := Merger |} ] in
    (set_runner p2 (set_tasks (runner p2) ts),
     tr ++ map (fun tk => CreateTask (coro tk)) ts ++ [Log INFO "Runner started"]).

(** [for task in self.tasks: if not task.done(): task.cancel()];
    [task_done i] is what [self.tasks[i].done()] returns in the loop. *)
Fixpoint cancel_tasks (ts : list Task) (i : nat) (task_done : nat -> bool)
    : list action :=
  match ts with
  | [] => []
  | _ :: rest =>
      (if task_done i then [] else [Cancel i])
      ++ cancel_tasks rest (S i) task_done
  end.

(** [stop]; [merger_stop] tells how [await self.merger.stop()] ends.  The
    first [gather] is called with [return_exceptions=True], so it returns
    whatever the two [stop()] coroutines do. *)
Definition stop (self : t) (merger_stop : cb_result) (task_done : nat -> bool)
    : t * list action * cb_result :=
  if negb (_running self) then (self, [], Returns)
  else
    let self1 := set__running self false in
    let phase1 := [Log INFO "Stopping runner...";
                   GatherStop [Orderbook; Trades];
                   Log INFO "Data sources stopped."] in
    match merger_stop with
    | Raises => (self1, phase1 ++ [AwaitStop Merger Raises], Raises)
    | Returns =>
        (self1,
         phase1
         ++ [AwaitStop Merger Returns; Log INFO "Merger stopped."]
         ++ cancel_tasks (tasks self1) 0%nat task_done
         ++ [GatherTasks (tasks self1);
             Log INFO "All tasks have been cancelled. Runner stopped."],
         Returns)
    end.

(** *** The components' notifications

    Modelled from the spec: the classes [RealTimeOrderBook] and
    [TradesStream] that call the registered handlers are not among the
    sources.  Each notifies its observers synchronously and in registration
    order: the order book with itself ([on_update]), the trades stream with
    the aggregate dict ([on_trade_aggregate]). *)
Inductive input :=
| OrderbookUpdated (ob : RealTimeOrderBook) (time_time : Q)
| TradeAggregated (agg : dict) (time_time : Q).

Section Delivery.
Variable json_dumps : SpikeData -> string.

(** One observer is called.  The signal detector and the merger's
    [add_trade] do not touch the runner.  The analyzer's callbacks act on the
    runner; the one that [_setup_callbacks] registers does not raise.  The
    file map that is passed along is the analyzer's view: it follows the
    audit log, not the sinks of the logger or the storage of the merger, and
    the actions collected are those of the runner's own handlers. *)
Definition call_handler (h : handler) (i : input) (p : Pipeline) (fs : files)
    : Pipeline * files * list action :=
  match h, i with
  | handle_orderbook_update, OrderbookUpdated ob time_time =>
      let '(self1, tr) := _handle_orderbook_update (runner p) ob time_time in
      (set_runner p self1, fs, tr)
  | handle_trade_aggregate, TradeAggregated agg _ =>
      (set_runner p (_handle_trade_aggregate (runner p) agg), fs, [])
  | activity_analyzer_process_event, TradeAggregated agg time_time =>
      let r := process_event json_dumps (activity_analyzer p) time_time agg
                 fs (runner p) in
      (set_runner p (out_world r), out_files r, [])
  | _, _ => (p, fs, [])
  end.

Fixpoint notify (hs : list handler) (i : input) (p : Pipeline) (fs : files)
    : Pipeline * files * list action :=
  match hs with
  | [] => (p, fs, [])
  | h :: rest =>
      let '(p1, fs1, tr1) := call_handler h i p fs in
      let '(p2, fs2, tr2) := notify rest i p1 fs1 in
      (p2, fs2, tr1 ++ tr2)
  end.

Definition deliver (i : input) (p : Pipeline) (fs : files)
    : Pipeline * files * list action :=
  match i with
  | OrderbookUpdated _ _ => notify (orderbook_on_update p) i p fs
  | TradeAggregated _ _ => notify (trades_on_trade_aggregate p) i p fs
  end.

Fixpoint run_inputs (inputs : list input) (p : Pipeline) (fs : files)
    : Pipeline * files * list action :=
  match inputs with
  | [] => (p, fs, [])
  | i :: rest =>
      let '(p1, fs1, tr1) := deliver i p fs in
      let '(p2, fs2, tr2) := run_inputs rest p1 fs1 in
      (p2, fs2, tr1 ++ tr2)
  end.
End Delivery.

(** The events handed to [merger.add_orderbook], in order. *)
Fixpoint added_orderbook_events (tr : list action) : list dict :=
  match tr with
  | [] => []
  | MergerAddOrderbook event :: rest => event :: added_orderbook_events rest
  | _ :: rest => added_orderbook_events rest
  end.

Definition is_orderbook_update (i : input) : bool :=
  match i with
  | OrderbookUpdated _ _ => true
  | TradeAggregated _ _ => false
  end.

End CombinedStreamRunner.

(** ** Vocabulary of the statements *)

(** Every occurrence of [b] in the trace comes after an occurrence of [a]. *)
Definition always_after {A} (a : A) (b : A -> Prop) (tr : list A) : Prop :=
  ∀ k x, tr !! k = Some x → b x → ∃ j, (j < k)%nat ∧ tr !! j = Some a.

Module AnalyzerSpec.
Import TradeActivityAnalyzer.

Definition is_invoke (a : action) : Prop :=
  match a with Invoke _ _ => True | _ => False end.


(** The audit record of an event: its JSON text and a newline. *)
Definition audit_line (json_dumps : SpikeData -> string) (d : SpikeData) : string :=
  json_dumps d +:+ newline.

(** A serialiser for the examples: it writes the two textual fields. *)
Definition dquote : string := String (Ascii.ascii_of_nat 34) EmptyString.

Definition json_str (s : string) : string := dquote +:+ s +:+ dquote.

Definition dumps_text_fields (d : SpikeData) : string :=
  "{" +:+ json_str "direction" +:+ ": " +:+ json_str (sd_direction d) +:+ ", "
  +:+ json_str "reason" +:+ ": " +:+ json_str (sd_reason d) +:+ "}".

(** An analyzer with the constructor's default thresholds, writing to
    [path], with the callbacks [cbs]. *)
Definition with_defaults {W} (path : string) (cbs : list (Callback W)) : t W :=
  {| volume_threshold := default_volume_threshold;
     imbalance_ratio_high := default_imbalance_ratio_high;
     imbalance_ratio_low := default_imbalance_ratio_low;
     spike_multiplier := default_spike_multiplier;
     enable_logging := true;
     save_path := path;
     callbacks := cbs |}.

(** Example aggregates. *)
Definition agg_balanced_burst : dict :=
  <["buy_volume" := 50]> (<["sell_volume" := 50]> (<["ts" := 1000]> ∅)).
Definition agg_buy_only : dict :=
  <["buy_volume" := 3]> (<["ts" := 1000]> ∅).

(** Example callbacks on a world that counts the calls. *)
Definition cb_count : Callback nat := fun _ n => (S n, Returns).
Definition cb_fail : Callback nat := fun _ n => (n, Raises).
End AnalyzerSpec.


Module RunnerSpec.
Import TradeActivityAnalyzer CombinedStreamRunner.

(** The handlers are registered as one call of [_setup_callbacks] on a new
    runner registers them. *)
Definition wired (p : Pipeline) : Prop :=
  callbacks (activity_analyzer p) = [activity_spike_callback]
  ∧ orderbook_on_update p = [handle_orderbook_update; signal_detector_process_orderbook]
  ∧ trades_on_trade_aggregate p = [handle_trade_aggregate; activity_analyzer_process_event].

(** What a notification leaves as it is. *)
Definition same_wiring (p p' : Pipeline) : Prop :=
  activity_analyzer p' = activity_analyzer p
  ∧ merger_model_runner p' = merger_model_runner p
  ∧ orderbook_on_update p' = orderbook_on_update p
  ∧ trades_on_trade_aggregate p' = trades_on_trade_aggregate p
  ∧ merger_on_merge p' = merger_on_merge p
  ∧ model_runner (runner p') = model_runner (runner p)
  ∧ _running (runner p') = _running (runner p)
  ∧ _activity_spike_ttl (runner p') = _activity_spike_ttl (runner p).

(** A runner is constructed and [run] is entered. *)
Definition started (ModelRunner_new : string -> ModelRunner + exn)
    (symbol : string) (model_path : option string) (fs : files)
    : Pipeline * files :=
  let '(p, fs1, _) := init ModelRunner_new symbol model_path fs in
  ((run p).1, fs1).

(** The test made by [_handle_orderbook_update]: a spike timestamp is stored,
    it is truthy, and it is less than the TTL old. *)
Definition recent_spike (self : t) (now : Q) : bool :=
  match _last_activity_spike_ts self with
  | Some ts => truthy ts && Qltb (now - ts) (_activity_spike_ttl self)
  | None => false
  end.

(** The entries that [_handle_orderbook_update] writes itself, before the
    near-price volumes and the cached aggregate are merged in. *)
Definition orderbook_fields (ob : RealTimeOrderBook) (mid_price flag : Q) : dict :=
  let '(imbalance, bid_vol, ask_vol) := get_imbalance ob in
  <["activity_spike" := flag]>
    (<["ask_volume" := ask_vol]>
       (<["bid_volume" := bid_vol]>
          (<["imbalance" := imbalance]>
             (<["mid_price" := mid_price]>
                (<["ts" := last_update_ts ob]> ∅))))).

(** Actions of the last part of [stop]: the tasks are cancelled and awaited. *)
Definition is_task_shutdown (a : action) : Prop :=
  match a with
  | Cancel _ | GatherTasks _ => True
  | _ => False
  end.

Definition is_merger_stop (a : action) : Prop :=
  match a with
  | AwaitStop Merger _ => True
  | _ => False
  end.

(** Example data. *)
Definition failing_loader : string -> ModelRunner + exn :=
  fun path => inr (Exception ("cannot load " +:+ path)).

Definition constant_model : ModelRunner :=
  {| predict := fun _ => PredOk "up" (3 # 4) |}.

Definition working_loader : string -> ModelRunner + exn :=
  fun _ => inl constant_model.

Definition book (mid : option Q) (ts : Q) : RealTimeOrderBook :=
  {| get_mid_price := mid;
     get_imbalance := (1 # 5, 60, 40);
     get_near_price_volume :=
       <["bid_volume_near" := 12]> (<["ask_volume_near" := 9]> ∅);
     last_update_ts := ts |}.

Definition new_runner : t :=
  {| symbol := "btcusdt"; tasks := []; _running := false; model_runner := None;
     _last_activity_spike_ts := None; _activity_spike_ttl := 1;
     _latest_trade_agg := ∅ |}.

Definition running_runner : t :=
  {| symbol := "btcusdt";
     tasks := [ {| coro := Orderbook |}; {| coro := Trades |}; {| coro := Merger |} ];
     _running := true; model_runner := None;
     _last_activity_spike_ts := None; _activity_spike_ttl := 1;
     _latest_trade_agg := ∅ |}.

Definition spike_at (ts : Q) : SpikeData :=
  {| sd_ts := ts; sd_type := "trade_activity_spike";
     sd_buy_volume := 50; sd_sell_volume := 50; sd_buy_sell_ratio := 1;
     sd_avg_price := 100; sd_trade_count := 10; sd_ma_volume := 0;
     sd_direction := "sell"; sd_reason := "volume_exceeded" |}.

Definition agg_window : dict :=
  <["ts" := 1000]> (<["buy_volume" := 1]> (<["sell_volume" := 1]>
    (<["avg_price" := 100]> (<["trade_count" := 2]> ∅)))).

(** An aggregate that carries keys the update handler writes itself. *)
Definition agg_with_mid_price : dict :=
  <["mid_price" := 0]> (<["buy_volume" := 1]> (<["sell_volume" := 1]> ∅)).

Definition agg_with_flag : dict := <["activity_spike" := 0]> agg_window.

(** A burst of trades stamped with the time zero. *)
Definition agg_burst_at_zero : dict :=
  <["ts" := 0]> (<["buy_volume" := 50]> (<["sell_volume" := 50]> ∅)).

(** The field [k] of each event handed to the merger. *)
Definition field_of_events (k : string) (tr : list action) : list (option Q) :=
  (fun ev : dict => ev !! k) <$> added_orderbook_events tr.
End RunnerSpec.


(** ** Vocabulary of the further statements *)

Module PipelineSpec.
Import TradeActivityAnalyzer CombinedStreamRunner.

(** The test of [process_event] for emitting: the total is not zero and one
    of the three conditions holds. *)
Definition detects {W} (self : TradeActivityAnalyzer.t W) (event : dict) : bool :=
  negb (Qeq_bool (total_volume event) 0)
  && (spike self event || imbalance self event || volume_exceeded self event).

(** The callbacks of a list called one after the other on a world. *)
Definition thread_callbacks {W} (cbs : list (Callback W)) (d : SpikeData) (w : W) : W :=
  foldl (fun w cb => (cb d w).1) w cbs.

(** The callbacks that a trace calls, by their position in the registration
    list, in the order of the calls. *)
Fixpoint invoked (tr : list TradeActivityAnalyzer.action) : list nat :=
  match tr with
  | [] => []
  | Invoke i _ :: rest => i :: invoked rest
  | _ :: rest => invoked rest
  end.

(** The text that a sequence of notifications adds to the audit log: one
    record for each aggregate that the analyzer reports, in order. *)
Fixpoint audit_text {W} (json_dumps : SpikeData -> string)
    (self : TradeActivityAnalyzer.t W) (inputs : list input) : string :=
  match inputs with
  | [] => EmptyString
  | TradeAggregated agg time_time :: rest =>
      (if detects self agg
       then json_dumps (spike_data self time_time agg) +:+ newline
       else EmptyString)
      +:+ audit_text json_dumps self rest
  | OrderbookUpdated _ _ :: rest => audit_text json_dumps self rest
  end.

(** An order-book update that the handler forwards: its mid price is truthy. *)
Definition forwarded (i : input) : bool :=
  match i with
  | OrderbookUpdated ob _ => truthy_opt (get_mid_price ob)
  | TradeAggregated _ _ => false
  end.

(** The keys that [_handle_orderbook_update] writes itself. *)
Definition base_keys : list string :=
  ["ts"; "mid_price"; "imbalance"; "bid_volume"; "ask_volume"; "activity_spike"].

(** [stop] on the runner of a pipeline. *)
Definition stop_pipeline (p : Pipeline) (merger_stop : cb_result)
    (task_done : nat -> bool) : Pipeline :=
  set_runner p (stop (runner p) merger_stop task_done).1.1.
End PipelineSpec.


(** ** train_temp_model.py *)

Module TrainTempModel.

(** [max(items, key=key)] on a list that is not empty, [best] being its first
    item: a later item replaces the best one only when its key is greater. *)
Fixpoint max_from {A} (key : A -> Q) (best : A) (rest : list A) : A :=
  match rest with
  | [] => best
  | y :: rest' => max_from key (if Qgtb (key y) (key best) then y else best) rest'
  end.

Section FindLatestFile.
(** [glob.glob], [os.path.getctime] and [os.path.join]. *)
Variable glob : string -> list string.
Variable getctime : string -> Q.
Variable path_join : string -> string -> string.

(** [find_latest_file] *)
Definition find_latest_file (directory : string) : option string :=
  let list_of_files := glob (path_join directory "*.parquet") in
  match list_of_files with
  | [] => None
  | first :: rest => Some (max_from getctime first rest)
  end.
End FindLatestFile.


(** What [train_and_save_temp_model] does to the outside. *)
Inductive action (DataFrame Model : Type) :=
| LogError (msg : string)
| LogInfo (msg : string)
| ReadParquet (path : string)
| Train (df : DataFrame)                       (* split, scale, fit, score *)
| Makedirs (dir : string)          (* os.makedirs(dir, exist_ok=True) is called *)
| JoblibDump (model : Model) (feature_names : list string) (path : string)
                                  (* joblib.dump(artifacts, path) is called *)
| LogSuccess (msg : string).
Arguments LogError {DataFrame Model} _.
Arguments LogInfo {DataFrame Model} _.
Arguments ReadParquet {DataFrame Model} _.
Arguments Train {DataFrame Model} _.
Arguments Makedirs {DataFrame Model} _.
Arguments JoblibDump {DataFrame Model} _ _ _.
Arguments LogSuccess {DataFrame Model} _.

Section TrainAndSave.
(** The data frame and the fitted artifacts (model and scaler) are those of
    pandas and scikit-learn; the function uses them through these
    operations. *)
Variables DataFrame Model : Type.
Variable path_exists : string -> bool.                     (* os.path.exists *)
Variable read_parquet : string -> option DataFrame.
                                     (* pd.read_parquet; [None] when it raises *)
Variable df_columns : DataFrame -> list string.            (* df.columns *)
Variable dropna : list string -> DataFrame -> DataFrame.   (* df.dropna(subset=...) *)
Variable df_empty : DataFrame -> bool.                     (* df.empty *)
Variable fit : DataFrame -> option Model.  (* training; [None] when it raises *)
Variable dirname : string -> string.                       (* os.path.dirname *)
Variable makedirs : string -> bool.
                 (* os.makedirs(dir, exist_ok=True); [false] when it raises *)
Variable joblib_dump : string -> bool.
                         (* joblib.dump(..., path); [false] when it raises *)

End TrainAndSave.




End TrainTempModel.

(** ** check_data.py *)

Module CheckData.
Import TrainTempModel.

Definition new_features : list string :=
  ["bid_volume_near"; "ask_volume_near"; "avg_price"; "buy_vol_speed";
   "sell_vol_speed"].

Definition check_cols : list string :=
  ["ts"; "price"; "avg_price"; "buy_vol_speed"; "sell_vol_speed";
   "bid_volume_near"; "ask_volume_near"].

(** What the script prints, by the statement that prints it. *)
Inductive output :=
| NoFilesFound                          (* the two lines before [sys.exit(1)] *)
| Analyzing (latest_file : string)
| Columns (n : nat) (cols : list string)
| AllFeaturesPresent
| MissingFeatures (missing : list string)
| Table (markdown : string)             (* a [to_markdown] rendering *)
| NoColumnsToCheck
| ErrorMessage (e : string).            (* the [except Exception] clause *)

(** How the call ends: it returns, or [SystemExit] leaves it. *)
Inductive ending := Returned | Exited (status : Z).

(** [max(items, key=key)] with a key that may raise ([inl]): the key is
    computed for the items in order, the first one included, and the first
    failure ends the search. *)
Fixpoint max_from_checked {A E} (key : A -> E + Q) (best : A) (best_key : Q)
    (rest : list A) : E + A :=
  match rest with
  | [] => inr best
  | y :: rest' =>
      match key y with
      | inl e => inl e
      | inr ky =>
          if Qgtb ky best_key then max_from_checked key y ky rest'
          else max_from_checked key best best_key rest'
      end
  end.

Definition max_checked {A E} (key : A -> E + Q) (first : A) (rest : list A) : E + A :=
  match key first with
  | inl e => inl e
  | inr k => max_from_checked key first k rest
  end.

Section CheckLatestDatafile.
Variable DataFrame : Type.
Variable glob : string -> list string.
(** [os.path.getctime]; it returns or raises an [Exception] with a message. *)
Variable getctime : string -> string + Q.
(** [pd.read_parquet] and [df[cols].head().to_markdown(index=False)] ([None]
    for all columns); each returns or raises an [Exception] with a message. *)
Variable read_parquet : string -> string + DataFrame.
Variable df_columns : DataFrame -> list string.
Variable head_to_markdown : DataFrame -> option (list string) -> string + string.

(** [check_latest_datafile] *)
Definition check_latest_datafile : list output * ending :=
  match glob "data/merged/*.parquet" with
  | [] => ([NoFilesFound], Exited 1)
  | first :: rest =>
      match max_checked getctime first rest with
      | inl e => ([ErrorMessage e], Returned)
      | inr latest_file =>
      let out1 := [Analyzing latest_file] in
      match read_parquet latest_file with
      | inl e => (out1 ++ [ErrorMessage e], Returned)
      | inr df =>
          let missing_features :=
            List.filter (fun f => negb (bool_decide (f ∈ df_columns df))) new_features in
          let out2 :=
            out1 ++ [Columns (length (df_columns df)) (df_columns df)]
            ++ [match missing_features with
                | [] => AllFeaturesPresent
                | _ :: _ => MissingFeatures missing_features
                end] in
          match head_to_markdown df None with
          | inl e => (out2 ++ [ErrorMessage e], Returned)
          | inr md =>
              let cols_to_display :=
                List.filter (fun c => bool_decide (c ∈ df_columns df)) check_cols in
              match cols_to_display with
              | [] => (out2 ++ [Table md; NoColumnsToCheck], Returned)
              | _ :: _ =>
                  match head_to_markdown df (Some cols_to_display) with
                  | inl e => (out2 ++ [Table md; ErrorMessage e], Returned)
                  | inr md2 => (out2 ++ [Table md; Table md2], Returned)
                  end
              end
          end
      end
      end
  end.
End CheckLatestDatafile.

(** The line of the report on the new features. *)
Definition feature_report (columns : list string) : output :=
  match List.filter (fun f => negb (bool_decide (f ∈ columns))) new_features with
  | [] => AllFeaturesPresent
  | f :: fs => MissingFeatures (f :: fs)
  end.

(** The outputs that follow the report: tables, the note that there is no
    column to check, an error message. *)
Definition is_tail_output (o : output) : Prop :=
  match o with
  | Table _ | NoColumnsToCheck | ErrorMessage _ => True
  | _ => False
  end.

End CheckData.


(** Example surroundings for the scripts: two Parquet files, the second one
    newer, and a data frame given by its column names. *)
Module ScriptExamples.
Definition two_files (pattern : string) : list string :=
  ["data/merged/a.parquet"; "data/merged/b.parquet"].

Definition b_is_newer (path : string) : Q :=
  if String.eqb path "data/merged/b.parquet" then 2 else 1.

Definition b_is_newer_checked (path : string) : string + Q := inr (b_is_newer path).

Definition a_is_gone (path : string) : string + Q :=
  if String.eqb path "data/merged/a.parquet" then inl "No such file" else inr 2.

Definition frame_columns : list string :=
  ["ts"; "mid_price"; "avg_price"; "bid_volume_near"; "ask_volume_near"].

Definition read_frame (path : string) : string + list string := inr frame_columns.

Definition render (df : list string) (cols : option (list string)) : string + string :=
  inr "| ts |".
End ScriptExamples.

(** * Properties *)

(** ** Comparisons *)

Lemma Qgtb_true (a b : Q) : Qgtb a b = true ↔ b < a.
Proof.
  unfold Qgtb. rewrite negb_true_iff, <- not_true_iff_false, Qle_bool_iff.
  split; [apply Qnot_le_lt | apply Qlt_not_le].
Qed.

Lemma Qgtb_false (a b : Q) : Qgtb a b = false ↔ a <= b.
Proof. unfold Qgtb. rewrite negb_false_iff. apply Qle_bool_iff. Qed.

Lemma Qltb_true (a b : Q) : Qltb a b = true ↔ a < b.
Proof. apply Qgtb_true. Qed.

Lemma truthy_true (x : Q) : truthy x = true ↔ ¬ x == 0.
Proof.
  unfold truthy. rewrite negb_true_iff, <- not_true_iff_false, Qeq_bool_iff.
  reflexivity.
Qed.

Lemma truthy_false (x : Q) : truthy x = false ↔ x == 0.
Proof. unfold truthy. rewrite negb_false_iff. apply Qeq_bool_iff. Qed.

Lemma Qeq_bool_false (x y : Q) : Qeq_bool x y = false ↔ ¬ x == y.
Proof. rewrite <- not_true_iff_false, Qeq_bool_iff. reflexivity. Qed.

Lemma truthy_str_true (s : string) : truthy_str s = true ↔ s ≠ EmptyString.
Proof. destruct s; simpl; split; congruence. Qed.

(** ** Files *)

Lemma open_a_write_lookup (fs : files) (path text : string) :
  open_a_write fs path text !! path
  = Some (default EmptyString (fs !! path) +:+ text).
Proof. unfold open_a_write. apply lookup_insert_eq. Qed.

Lemma open_a_write_other (fs : files) (path text other : string) :
  other ≠ path → open_a_write fs path text !! other = fs !! other.
Proof. intros H. unfold open_a_write. by rewrite lookup_insert_ne. Qed.

(** ** The analyzer *)

Section AnalyzerFacts.
Import TradeActivityAnalyzer AnalyzerSpec.
Context {W : Type}.
Variable json_dumps : SpikeData -> string.

(** The callback loop calls the callbacks in registration order, each at
    most once and all with the same dict, and stops at the first raise. *)
Lemma run_callbacks_shape (cbs : list (Callback W)) (i : nat) (d : SpikeData) (w : W) :
  ∃ k, (k ≤ length cbs)%nat
       ∧ (run_callbacks cbs i d w).1.2 = map (fun j => Invoke j d) (seq i k)
       ∧ ((run_callbacks cbs i d w).2 = Returns → k = length cbs)
       ∧ ((run_callbacks cbs i d w).2 = Raises → (0 < k)%nat).
Proof.
  revert i w. induction cbs as [|cb rest IH]; intros i w; simpl.
  - exists 0%nat. repeat split; try lia; try done.
  - destruct (cb d w) as [w1 r] eqn:Hcb. destruct r.
    + destruct (IH (S i) w1) as (k & Hk & Htr & Hret & Hrai).
      destruct (run_callbacks rest (S i) d w1) as [[w2 tr] r2] eqn:Hrun.
      simpl in *. exists (S k). repeat split.
      * lia.
      * simpl. by rewrite Htr.
      * intros H. by rewrite Hret.
      * lia.
    + exists 1%nat. simpl. repeat split; try lia; try done.
Qed.

(** The dict built by [process_event] for an event. *)
Lemma process_event_quiet (self : t W) now event fs w :
  Qeq_bool (total_volume event) 0 = true
  ∨ spike self event || imbalance self event || volume_exceeded self event = false →
  process_event json_dumps self now event fs w
  = {| out_files := fs; out_world := w; trace := [];
       emitted := None; outcome := Returns |}.
Proof.
  unfold process_event. intros [H|H].
  - by rewrite H.
  - rewrite H. by destruct (Qeq_bool _ _).
Qed.

Lemma process_event_loud (self : t W) now event fs w :
  Qeq_bool (total_volume event) 0 = false →
  spike self event || imbalance self event || volume_exceeded self event = true →
  let d := spike_data self now event in
  let r := process_event json_dumps self now event fs w in
  let c := run_callbacks (callbacks self) 0 d w in
    emitted r = Some d
    ∧ out_files r = (if truthy_str (save_path self)
                     then open_a_write fs (save_path self) (audit_line json_dumps d)
                     else fs)
    ∧ out_world r = c.1.1
    ∧ outcome r = c.2
    ∧ trace r = (if truthy_str (save_path self)
                 then [FileAppend (save_path self) (audit_line json_dumps d)]
                 else [])
                ++ c.1.2
                ++ (match c.2 with
                    | Returns => if enable_logging self then [LogWarning d] else []
                    | Raises => []
                    end).
Proof.
  intros Htot Hcond. unfold process_event. rewrite Htot, Hcond. cbv zeta.
  destruct (truthy_str (save_path self));
    destruct (run_callbacks _ _ _ _) as [[w1 tr2] r] eqn:Hrun;
    destruct r; simpl; rewrite ?app_nil_r; repeat split; reflexivity.
Qed.
Lemma emitted_spec (self : t W) now event fs w :
  emitted (process_event json_dumps self now event fs w)
  = if negb (Qeq_bool (total_volume event) 0)
       && (spike self event || imbalance self event || volume_exceeded self event)
    then Some (spike_data self now event) else None.
Proof.
  destruct (Qeq_bool (total_volume event) 0) eqn:Htot; simpl.
  - rewrite process_event_quiet; auto.
  - destruct (spike self event || imbalance self event || volume_exceeded self event)
      eqn:Hcond.
    + by destruct (process_event_loud self now event fs w Htot Hcond) as [-> _].
    + rewrite process_event_quiet; auto.
Qed.

Lemma emitted_None_quiet (self : t W) now event fs w :
  emitted (process_event json_dumps self now event fs w) = None →
  process_event json_dumps self now event fs w
  = {| out_files := fs; out_world := w; trace := [];
       emitted := None; outcome := Returns |}.
Proof.
  rewrite emitted_spec. intros H. apply process_event_quiet.
  destruct (Qeq_bool (total_volume event) 0); [by left|right].
  by destruct (spike self event || imbalance self event || volume_exceeded self event).
Qed.

Lemma emitted_Some_loud (self : t W) now event fs w d :
  emitted (process_event json_dumps self now event fs w) = Some d →
  d = spike_data self now event
  ∧ Qeq_bool (total_volume event) 0 = false
  ∧ spike self event || imbalance self event || volume_exceeded self event = true.
Proof.
  rewrite emitted_spec.
  destruct (Qeq_bool (total_volume event) 0); simpl; [done|].
  destruct (spike self event || imbalance self event || volume_exceeded self event);
    [|done].
  intros [= <-]. done.
Qed.






(** C6.  In an emitted event the field [buy_sell_ratio] is [buy_volume /
    sell_volume] when [sell_volume > 0], the sentinel [1_000_000] when
    [sell_volume == 0] and [buy_volume > 0], and [1] when both volumes are
    zero; the field [direction] is ["buy"] exactly when that ratio is
    greater than 1 and ["sell"] otherwise, so equal positive volumes give
    ["sell"]. *)
Theorem ratio_and_direction_of_emitted (self : t W) (now : Q) (event : dict)
    (fs : files) (w : W) (d : SpikeData) :
  emitted (process_event json_dumps self now event fs w) = Some d →
  sd_buy_volume d = default 0 (event !! "buy_volume")
  ∧ sd_sell_volume d = default 0 (event !! "sell_volume")
  ∧ (0 < sd_sell_volume d →
     sd_buy_sell_ratio d = sd_buy_volume d / sd_sell_volume d)
  ∧ (sd_sell_volume d == 0 → 0 < sd_buy_volume d →
     sd_buy_sell_ratio d = 1000000)
  ∧ (sd_sell_volume d == 0 → sd_buy_volume d == 0 → sd_buy_sell_ratio d = 1)
  ∧ (sd_direction d = "buy" ↔ 1 < sd_buy_sell_ratio d)
  ∧ (sd_direction d = "sell" ↔ ¬ 1 < sd_buy_sell_ratio d)
  ∧ (sd_buy_volume d == sd_sell_volume d → 0 < sd_sell_volume d →
     sd_direction d = "sell").
Proof.
  intros He. apply emitted_Some_loud in He as (-> & _ & _). simpl.
  assert (Hdir : direction event = "buy" ↔ 1 < buy_sell_ratio event).
  { unfold direction. rewrite <- Qgtb_true.
    destruct (Qgtb (buy_sell_ratio event) 1); split; done. }
  assert (Hsell : direction event = "sell" ↔ ¬ 1 < buy_sell_ratio event).
  { unfold direction. rewrite <- Qgtb_true.
    destruct (Qgtb (buy_sell_ratio event) 1); split; try done;
      intros H; by destruct H. }
  split_and!; [done | done | | | | exact Hdir | exact Hsell | ].
  - intros Hs. unfold buy_sell_ratio.
    apply Qgtb_true in Hs. by rewrite Hs.
  - intros Hs Hb. unfold buy_sell_ratio.
    assert (Qgtb (sell_volume event) 0 = false) as -> by (apply Qgtb_false; lra).
    apply Qgtb_true in Hb. by rewrite Hb.
  - intros Hs Hb. unfold buy_sell_ratio.
    assert (Qgtb (sell_volume event) 0 = false) as -> by (apply Qgtb_false; lra).
    by assert (Qgtb (buy_volume event) 0 = false) as -> by (apply Qgtb_false; lra).
  - intros Heq Hs. apply Hsell. unfold buy_sell_ratio.
    assert (Qgtb (sell_volume event) 0 = true) as -> by (by apply Qgtb_true).
    assert (buy_volume event / sell_volume event == 1) as Hone.
    { rewrite Heq. unfold Qdiv. apply Qmult_inv_r. lra. }
    rewrite Hone. lra.
Qed.

(** C7.  The field [reason] of an emitted event follows a fixed priority:
    it is ["spike"] whenever the spike condition holds, otherwise
    ["imbalance"] whenever the imbalance condition holds, otherwise
    ["volume_exceeded"] (and then the volume condition holds).  It is one
    of these three values, also when several conditions hold at once. *)
Theorem reason_by_priority (self : t W) (now : Q) (event : dict)
    (fs : files) (w : W) (d : SpikeData) :
  emitted (process_event json_dumps self now event fs w) = Some d →
  (sd_reason d = "spike" ↔ spike self event = true)
  ∧ (sd_reason d = "imbalance"
     ↔ spike self event = false ∧ imbalance self event = true)
  ∧ (sd_reason d = "volume_exceeded"
     ↔ spike self event = false ∧ imbalance self event = false)
  ∧ (sd_reason d = "volume_exceeded" → volume_exceeded self event = true)
  ∧ (sd_reason d = "spike" ∨ sd_reason d = "imbalance"
     ∨ sd_reason d = "volume_exceeded").
Proof.
  intros He. apply emitted_Some_loud in He as (-> & _ & Hcond). simpl.
  unfold reason.
  destruct (spike self event), (imbalance self event),
    (volume_exceeded self event); simpl in Hcond; try discriminate Hcond;
    split_and!; try split; intros; intuition congruence.
Qed.

(** C2 (as amended).  When a save path is configured, the audit record of
    an emitted event (its JSON text and a newline) is appended to the file
    before any callback is called: every call of a callback in the trace
    comes after the append, and the file holds the record whether the
    callbacks return or one of them raises. *)
Theorem audit_line_written_before_callbacks (self : t W) (now : Q)
    (event : dict) (fs : files) (w : W) (d : SpikeData) :
  truthy_str (save_path self) = true →
  emitted (process_event json_dumps self now event fs w) = Some d →
  let r := process_event json_dumps self now event fs w in
  always_after (FileAppend (save_path self) (audit_line json_dumps d))
               is_invoke (trace r)
  ∧ trace r !! 0%nat = Some (FileAppend (save_path self) (audit_line json_dumps d))
  ∧ out_files r !! save_path self
    = Some (default EmptyString (fs !! save_path self) +:+ audit_line json_dumps d)
  ∧ (outcome r = Raises →
     (∃ i, Invoke i d ∈ trace r)
     ∧ out_files r !! save_path self
       = Some (default EmptyString (fs !! save_path self)
               +:+ audit_line json_dumps d)).
Proof.
  intros Hsave He r. subst r.
  apply emitted_Some_loud in He as (-> & Htot & Hcond).
  destruct (process_event_loud self now event fs w Htot Hcond)
    as (_ & Hfs & _ & Hout & Htr).
  rewrite Hsave in Hfs, Htr.
  assert (Hfile : out_files (process_event json_dumps self now event fs w)
                    !! save_path self
                  = Some (default EmptyString (fs !! save_path self)
                          +:+ audit_line json_dumps (spike_data self now event))).
  { rewrite Hfs. apply open_a_write_lookup. }
  split; [|split; [|split]].
  - intros k x Hk Hx. rewrite Htr in Hk. destruct k as [|k].
    + simpl in Hk. injection Hk as <-. done.
    + exists 0%nat. split; [lia|]. by rewrite Htr.
  - by rewrite Htr.
  - exact Hfile.
  - intros Hr. split; [|exact Hfile].
    rewrite Hout in Hr.
    destruct (run_callbacks_shape (callbacks self) 0 (spike_data self now event) w)
      as (k & _ & Hc & _ & Hpos).
    specialize (Hpos Hr). exists 0%nat. rewrite Htr, Hc.
    apply elem_of_app. right. apply elem_of_app. left.
    apply list_elem_of_fmap. exists 0%nat. split; [done|].
    apply elem_of_seq. lia.
Qed.

Lemma init_fields (vt high low mult : Q) (logging : bool) (path : string)
    (fs : files) :
  let self : t W := (init vt high low mult logging path fs).1 in
  volume_threshold self = vt ∧ imbalance_ratio_high self = high
  ∧ imbalance_ratio_low self = low ∧ spike_multiplier self = mult
  ∧ enable_logging self = logging ∧ save_path self = path
  ∧ callbacks self = [].
Proof. unfold init. by destruct (_ && _). Qed.

(** C9.  With a save path configured, the constructor creates the audit
    log empty when the file does not exist and leaves the file system as it
    is when the file exists, so that its contents are unchanged; no other
    file is touched.  Every later write to the file by [process_event]
    keeps what the file holds and puts one record after it: the JSON text
    of the emitted event and a newline. *)
Theorem audit_log_created_never_truncated
    (vt high low mult : Q) (logging : bool) (path : string) (fs : files) :
  truthy_str path = true →
  let self : t W := (init vt high low mult logging path fs).1 in
  let fs0 : files := (init (W:=W) vt high low mult logging path fs).2 in
  save_path self = path
  ∧ (fs !! path = None → fs0 !! path = Some EmptyString)
  ∧ (∀ c, fs !! path = Some c → fs0 = fs)
  ∧ (∀ other, other ≠ path → fs0 !! other = fs !! other)
  ∧ (∀ (self' : t W) now event fs1 w c,
       save_path self' = path → fs1 !! path = Some c →
       let r := process_event json_dumps self' now event fs1 w in
       (emitted r = None ∧ out_files r = fs1)
       ∨ (∃ d, emitted r = Some d
               ∧ out_files r = <[path := c +:+ (json_dumps d +:+ newline)]> fs1)).
Proof.
  intros Hpath self fs0.
  split; [by destruct (init_fields vt high low mult logging path fs)
               as (_ & _ & _ & _ & _ & ? & _)|].
  subst self fs0. unfold init. rewrite Hpath. simpl.
  split_and!.
  - intros Hnone. unfold path_exists.
    rewrite bool_decide_eq_false_2; [|rewrite Hnone; by intros [? ?]].
    simpl. unfold open_w. apply lookup_insert_eq.
  - intros c Hc. unfold path_exists.
    rewrite bool_decide_eq_true_2; [done|rewrite Hc; eauto].
  - intros other Hne. destruct (negb (path_exists fs path)); simpl; [|done].
    unfold open_w. by rewrite lookup_insert_ne.
  - intros self' now event fs1 w c Hsp Hc.
    destruct (emitted (process_event json_dumps self' now event fs1 w))
      as [d|] eqn:He.
    + right. exists d. split; [done|].
      apply emitted_Some_loud in He as (-> & Htot & Hcond).
      destruct (process_event_loud self' now event fs1 w Htot Hcond)
        as (_ & -> & _).
      rewrite Hsp, Hpath. unfold open_a_write, audit_line. by rewrite Hc.
    + left. split; [done|]. by rewrite (emitted_None_quiet _ _ _ _ _ He).
Qed.

End AnalyzerFacts.

(** ** The analyzer on concrete aggregates *)

Section AnalyzerExamples.
Import TradeActivityAnalyzer AnalyzerSpec.

(** Fifty bought and fifty sold: the volume threshold is exceeded, the
    ratio is 1, the direction is ["sell"]. *)
Example balanced_burst_emitted :
  emitted (process_event dumps_text_fields (with_defaults default_save_path [cb_count])
             7 agg_balanced_burst ∅ 0%nat)
  = Some {| sd_ts := 1000; sd_type := "trade_activity_spike";
            sd_buy_volume := 50; sd_sell_volume := 50;
            sd_buy_sell_ratio := 50 / 50; sd_avg_price := 0;
            sd_trade_count := 0; sd_ma_volume := 0;
            sd_direction := "sell"; sd_reason := "volume_exceeded" |}.
Proof. reflexivity. Qed.

Example buy_only_emitted :
  emitted (process_event dumps_text_fields (with_defaults default_save_path [cb_count])
             7 agg_buy_only ∅ 0%nat)
  = Some {| sd_ts := 1000; sd_type := "trade_activity_spike";
            sd_buy_volume := 3; sd_sell_volume := 0;
            sd_buy_sell_ratio := 1000000; sd_avg_price := 0;
            sd_trade_count := 0; sd_ma_volume := 0;
            sd_direction := "buy"; sd_reason := "imbalance" |}.
Proof. reflexivity. Qed.


Lemma ratio_and_direction_witness :
  let self : t nat := with_defaults default_save_path [cb_count] in
  let d := spike_data self 7 agg_balanced_burst in
  emitted (process_event dumps_text_fields self 7 agg_balanced_burst ∅ 0%nat) = Some d
  ∧ sd_buy_sell_ratio d = sd_buy_volume d / sd_sell_volume d
  ∧ sd_direction d = "sell".
Proof.
  intros self d.
  assert (He : emitted (process_event dumps_text_fields self 7 agg_balanced_burst ∅ 0%nat)
               = Some d) by reflexivity.
  destruct (ratio_and_direction_of_emitted dumps_text_fields self 7
              agg_balanced_burst ∅ 0%nat d He)
    as (_ & _ & Hratio & _ & _ & _ & _ & Hsell).
  split; [exact He|]. split.
  - apply Hratio. reflexivity.
  - apply Hsell; reflexivity.
Defined.

Lemma reason_by_priority_witness :
  let self : t nat := with_defaults default_save_path [cb_count] in
  let d := spike_data self 7 agg_buy_only in
  emitted (process_event dumps_text_fields self 7 agg_buy_only ∅ 0%nat) = Some d
  ∧ (sd_reason d = "imbalance"
     ↔ spike self agg_buy_only = false ∧ imbalance self agg_buy_only = true).
Proof.
  intros self d.
  assert (He : emitted (process_event dumps_text_fields self 7 agg_buy_only ∅ 0%nat)
               = Some d) by reflexivity.
  destruct (reason_by_priority dumps_text_fields self 7 agg_buy_only ∅ 0%nat d He)
    as (_ & H & _).
  split; [exact He | exact H].
Defined.

(** C2, counterexample.  An analyzer built with an empty save path has no
    audit log: the event is handed to the callback and nothing is written
    anywhere. *)
Lemma unlogged_callback_counterexample :
  let self : t nat := with_defaults EmptyString [cb_count] in
  let r := process_event dumps_text_fields self 7 agg_balanced_burst ∅ 0%nat in
  let d := spike_data self 7 agg_balanced_burst in
  emitted r = Some d
  ∧ trace r = [Invoke 0 d; LogWarning d]
  ∧ out_files r = ∅
  ∧ ¬ always_after (FileAppend (save_path self) (audit_line dumps_text_fields d))
        is_invoke (trace r).
Proof.
  intros self r d. split; [reflexivity|]. split; [reflexivity|].
  split; [reflexivity|].
  intros H. destruct (H 0%nat (Invoke 0 d) eq_refl I) as (j & Hj & _). lia.
Qed.

(** A callback that raises finds the record already in the file. *)
Lemma audit_line_written_before_callbacks_witness :
  let self : t nat := with_defaults default_save_path [cb_count; cb_fail; cb_count] in
  let r := process_event dumps_text_fields self 7 agg_balanced_burst ∅ 0%nat in
  let d := spike_data self 7 agg_balanced_burst in
  truthy_str (save_path self) = true
  ∧ emitted r = Some d
  ∧ outcome r = Raises
  ∧ trace r = [FileAppend default_save_path (audit_line dumps_text_fields d);
               Invoke 0 d; Invoke 1 d]
  ∧ out_files r !! default_save_path = Some (audit_line dumps_text_fields d).
Proof.
  intros self r d.
  assert (Hs : truthy_str (save_path self) = true) by reflexivity.
  assert (He : emitted r = Some d) by reflexivity.
  destruct (audit_line_written_before_callbacks dumps_text_fields self 7
              agg_balanced_burst ∅ 0%nat d Hs He) as (_ & _ & Hfile & _).
  split; [exact Hs|]. split; [exact He|]. split; [reflexivity|].
  split; [reflexivity|]. exact Hfile.
Defined.

Lemma audit_log_created_never_truncated_witness :
  truthy_str default_save_path = true
  ∧ (init (W:=unit) 10 2 (1 # 2) (6 # 5) true default_save_path ∅).2
      !! default_save_path = Some EmptyString
  ∧ (init (W:=unit) 10 2 (1 # 2) (6 # 5) true default_save_path
       {[ default_save_path := "{}" +:+ newline ]}).2
    = {[ default_save_path := "{}" +:+ newline ]}.
Proof.
  split; [reflexivity|]. split.
  - destruct (audit_log_created_never_truncated (W:=unit) dumps_text_fields
                10 2 (1 # 2) (6 # 5) true default_save_path ∅ eq_refl)
      as (_ & H & _).
    apply H. reflexivity.
  - destruct (audit_log_created_never_truncated (W:=unit) dumps_text_fields
                10 2 (1 # 2) (6 # 5) true default_save_path
                {[ default_save_path := "{}" +:+ newline ]} eq_refl)
      as (_ & _ & H & _).
    apply (H ("{}" +:+ newline)). reflexivity.
Defined.
End AnalyzerExamples.

(** ** The runner's handlers *)

Section HandlerFacts.
Import TradeActivityAnalyzer CombinedStreamRunner RunnerSpec.

Lemma dict_update_lookup (base upd : dict) (k : string) :
  dict_update base upd !! k
  = match upd !! k with Some v => Some v | None => base !! k end.
Proof.
  unfold dict_update. rewrite lookup_union.
  destruct (upd !! k), (base !! k); reflexivity.
Qed.

Lemma dict_update_overrides (base upd : dict) : upd ⊆ dict_update base upd.
Proof. unfold dict_update. apply map_union_subseteq_l. Qed.

Lemma handle_orderbook_update_skip (self : t) (ob : RealTimeOrderBook) (now : Q) :
  truthy_opt (get_mid_price ob) = false →
  _handle_orderbook_update self ob now = (self, []).
Proof.
  unfold _handle_orderbook_update. destruct (get_mid_price ob) as [m|]; simpl.
  - by intros ->.
  - done.
Qed.

Lemma handle_orderbook_update_emit (self : t) (ob : RealTimeOrderBook) (now m : Q) :
  get_mid_price ob = Some m → truthy m = true →
  _handle_orderbook_update self ob now
  = (if recent_spike self now then self else set__last_activity_spike_ts self None,
     [MergerAddOrderbook
        (dict_update
           (dict_update
              (orderbook_fields ob m (if recent_spike self now then 1 else 0))
              (get_near_price_volume ob))
           (_latest_trade_agg self))]).
Proof.
  intros Hm Ht. unfold _handle_orderbook_update, orderbook_fields, recent_spike.
  rewrite Hm, Ht. simpl. destruct (get_imbalance ob) as [[imb bid] ask].
  destruct (_last_activity_spike_ts self) as [ts|]; [|done].
  by destruct (truthy ts && Qltb (now - ts) (_activity_spike_ttl self)).
Qed.

(** What the handler emits: nothing, or one event built from a truthy mid
    price. *)
Lemma handle_orderbook_update_events (self : t) (ob : RealTimeOrderBook) (now : Q)
    (a : action) :
  a ∈ (_handle_orderbook_update self ob now).2 →
  ∃ m, get_mid_price ob = Some m ∧ truthy m = true
       ∧ a = MergerAddOrderbook
               (dict_update
                  (dict_update
                     (orderbook_fields ob m (if recent_spike self now then 1 else 0))
                     (get_near_price_volume ob))
                  (_latest_trade_agg self)).
Proof.
  intros Ha. destruct (get_mid_price ob) as [m|] eqn:Hm.
  - destruct (truthy m) eqn:Ht.
    + rewrite (handle_orderbook_update_emit self ob now m Hm Ht) in Ha.
      simpl in Ha. apply list_elem_of_singleton in Ha. eauto.
    + rewrite handle_orderbook_update_skip in Ha; [|by rewrite Hm].
      by apply elem_of_nil in Ha.
  - rewrite handle_orderbook_update_skip in Ha; [|by rewrite Hm].
    by apply elem_of_nil in Ha.
Qed.

Lemma orderbook_fields_mid_price (ob : RealTimeOrderBook) (m flag : Q) :
  orderbook_fields ob m flag !! "mid_price" = Some m.
Proof. unfold orderbook_fields. by destruct (get_imbalance ob) as [[? ?] ?]. Qed.

Lemma orderbook_fields_activity_spike (ob : RealTimeOrderBook) (m flag : Q) :
  orderbook_fields ob m flag !! "activity_spike" = Some flag.
Proof. unfold orderbook_fields. by destruct (get_imbalance ob) as [[? ?] ?]. Qed.

Lemma orderbook_fields_ts (ob : RealTimeOrderBook) (m flag : Q) :
  orderbook_fields ob m flag !! "ts" = Some (last_update_ts ob).
Proof. unfold orderbook_fields. by destruct (get_imbalance ob) as [[? ?] ?]. Qed.
(** C10 (as amended).  When the mid price of the order book is falsy ([None]
    or zero) the update handler returns without emitting anything and
    without changing the runner.  Hence every event handed to
    [merger.add_orderbook] was built from a mid price that is neither [None]
    nor zero, and its field [mid_price] is that price unless the near-price
    volumes or the cached aggregate carry a key [mid_price] of their own. *)
Theorem falsy_mid_price_not_forwarded (self : t) (ob : RealTimeOrderBook) (now : Q) :
  (truthy_opt (get_mid_price ob) = false →
   _handle_orderbook_update self ob now = (self, []))
  ∧ (∀ ev, MergerAddOrderbook ev ∈ (_handle_orderbook_update self ob now).2 →
       ∃ m, get_mid_price ob = Some m ∧ ¬ m == 0
            ∧ (get_near_price_volume ob !! "mid_price" = None →
               _latest_trade_agg self !! "mid_price" = None →
               ev !! "mid_price" = Some m)).
Proof.
  split; [apply handle_orderbook_update_skip|].
  intros ev Hev.
  apply handle_orderbook_update_events in Hev as (m & Hm & Ht & [= ->]).
  exists m. split; [done|]. split; [by apply truthy_true|].
  intros Hnpv Hagg.
  rewrite !dict_update_lookup, Hagg, Hnpv. apply orderbook_fields_mid_price.
Qed.

Lemma no_spike_flag_zero (self : t) (ob : RealTimeOrderBook) (now : Q) (ev : dict) :
  _last_activity_spike_ts self = None →
  get_near_price_volume ob !! "activity_spike" = None →
  _latest_trade_agg self !! "activity_spike" = None →
  MergerAddOrderbook ev ∈ (_handle_orderbook_update self ob now).2 →
  ev !! "activity_spike" = Some 0.
Proof.
  intros Hts Hnpv Hagg Hev.
  apply handle_orderbook_update_events in Hev as (m & _ & _ & [= ->]).
  rewrite !dict_update_lookup, Hagg, Hnpv, orderbook_fields_activity_spike.
  unfold recent_spike. by rewrite Hts.
Qed.

(** C3 (as amended).  The runner is constructed with a TTL of one second.
    After a spike with the timestamp [t0] is recorded, an order-book feature
    event emitted at the wall-clock time [now] has [activity_spike = 1] when
    [now - t0] is less than the TTL and [activity_spike = 0] otherwise,
    provided that [t0] is not zero and that neither the near-price volumes
    nor the cached aggregate carry a key [activity_spike], which would
    override the handler's entry.
    The flag expires in this check alone: an expired check resets the stored
    timestamp to [None], after which the flag stays 0, and caching an
    aggregate or stopping the runner leaves the timestamp alone. *)
Theorem activity_flag_follows_ttl (self : t) (d : SpikeData)
    (ob : RealTimeOrderBook) (now m : Q) :
  let self0 := (_handle_activity_spike self d).1 in
  let t0 := sd_ts d in
  get_mid_price ob = Some m → truthy m = true →
  ¬ t0 == 0 →
  get_near_price_volume ob !! "activity_spike" = None →
  _latest_trade_agg self !! "activity_spike" = None →
  ∃ ev self1,
    _handle_orderbook_update self0 ob now = (self1, [MergerAddOrderbook ev])
    ∧ _last_activity_spike_ts self0 = Some t0
    ∧ (now - t0 < _activity_spike_ttl self →
       ev !! "activity_spike" = Some 1 ∧ _last_activity_spike_ts self1 = Some t0)
    ∧ (¬ now - t0 < _activity_spike_ttl self →
       ev !! "activity_spike" = Some 0 ∧ _last_activity_spike_ts self1 = None
       ∧ ∀ ob' now' ev',
           get_near_price_volume ob' !! "activity_spike" = None →
           MergerAddOrderbook ev' ∈ (_handle_orderbook_update self1 ob' now').2 →
           ev' !! "activity_spike" = Some 0)
    ∧ (∀ agg, _last_activity_spike_ts (_handle_trade_aggregate self0 agg) = Some t0)
    ∧ (∀ ms td, _last_activity_spike_ts (stop self0 ms td).1.1 = Some t0)
    ∧ (∀ ctor sym mp fs,
         _activity_spike_ttl (runner (init ctor sym mp fs).1.1) = 1).
Proof.
  intros self0 t0 Hm Ht Hz Hnpv Hagg.
  rewrite (handle_orderbook_update_emit self0 ob now m Hm Ht).
  eexists _, _. split; [reflexivity|].
  assert (Hrec : recent_spike self0 now = Qltb (now - t0) (_activity_spike_ttl self)).
  { unfold recent_spike. simpl. apply truthy_true in Hz. fold t0. by rewrite Hz. }
  split; [done|].
  split_and!.
  - intros Hlt. apply Qltb_true in Hlt. rewrite Hrec, Hlt. split; [|done].
    rewrite !dict_update_lookup. simpl. rewrite Hagg, Hnpv.
    apply orderbook_fields_activity_spike.
  - intros Hge. rewrite <- Qltb_true in Hge. apply not_true_is_false in Hge.
    rewrite Hrec, Hge. split_and!; [|done|].
    + rewrite !dict_update_lookup. simpl. rewrite Hagg, Hnpv.
      apply orderbook_fields_activity_spike.
    + intros ob' now' ev' Hnpv' Hev'.
      by apply (no_spike_flag_zero (set__last_activity_spike_ts self0 None) ob' now' ev').
  - done.
  - intros ms td. unfold stop. destruct (negb (_running self0)); [done|].
    by destruct ms.
  - intros ctor sym mp fs. unfold init.
    destruct (TradeActivityAnalyzer.init _ _ _ _ _ _ _) as [an fs1].
    destruct mp as [path|]; [|done].
    destruct (truthy_str path); [|done]. by destruct (ctor path).
Qed.

(** *** Shutdown *)

Lemma always_after_split {A} (a : A) (b : A → Prop) (pre post : list A) :
  (∀ x, x ∈ pre → ¬ b x) → ¬ b a → always_after a b (pre ++ a :: post).
Proof.
  intros Hpre Ha k x Hk Hb.
  destruct (decide (k < length pre)%nat) as [Hlt|Hge].
  - rewrite lookup_app_l in Hk by done.
    exfalso. apply (Hpre x); [|done]. by eapply list_elem_of_lookup_2.
  - destruct (decide (k = length pre)) as [->|Hne].
    + rewrite list_lookup_middle in Hk by done. by injection Hk as <-.
    + exists (length pre). split; [lia|]. by apply list_lookup_middle.
Qed.

Lemma always_after_none {A} (a : A) (b : A → Prop) (tr : list A) :
  (∀ x, x ∈ tr → ¬ b x) → always_after a b tr.
Proof.
  intros H k x Hk Hb. exfalso. apply (H x); [|done].
  by eapply list_elem_of_lookup_2.
Qed.

Lemma cancel_tasks_spec (ts : list Task) (i : nat) (task_done : nat → bool) (a : action) :
  a ∈ cancel_tasks ts i task_done
  ↔ ∃ j, a = Cancel j ∧ (i ≤ j < i + length ts)%nat ∧ task_done j = false.
Proof.
  revert i. induction ts as [|tk rest IH]; intros i; simpl.
  - split; [by intros ?%elem_of_nil|]. intros (j & _ & Hj & _). lia.
  - rewrite elem_of_app, IH. split.
    + intros [Hin|(j & -> & Hj & Hd)].
      * destruct (task_done i) eqn:Hd; [by apply elem_of_nil in Hin|].
        apply list_elem_of_singleton in Hin as ->. exists i. split; [done|].
        split; [lia|done].
      * exists j. split; [done|]. split; [lia|done].
    + intros (j & -> & Hj & Hd).
      destruct (decide (j = i)) as [->|Hne].
      * left. rewrite Hd. by apply list_elem_of_singleton.
      * right. exists j. split; [done|]. split; [lia|done].
Qed.

(** The trace of a [stop] that finds the runner running. *)
Lemma stop_trace (self : t) (ms : cb_result) (td : nat → bool) :
  _running self = true →
  stop self ms td
  = (set__running self false,
     [Log INFO "Stopping runner..."; GatherStop [Orderbook; Trades];
      Log INFO "Data sources stopped."]
     ++ AwaitStop Merger ms
        :: match ms with
           | Raises => []
           | Returns =>
               Log INFO "Merger stopped."
               :: cancel_tasks (tasks self) 0 td
               ++ [GatherTasks (tasks self);
                   Log INFO "All tasks have been cancelled. Runner stopped."]
           end,
     ms).
Proof. intros Hr. unfold stop. rewrite Hr. simpl. by destruct ms. Qed.

(** C4.  [stop] on a running runner clears the running flag and then works
    in strict order: it stops the order book and the trades stream together
    and awaits both; only then it stops the merger and awaits it; only after
    the merger's [stop] has returned it cancels every task that is not done
    and awaits all tasks, the cancellations coming before the await.  If the
    merger's [stop] raises, no task is cancelled or awaited.  On a runner
    that is not running, [stop] does nothing, so a second [stop] is a
    no-op. *)
Theorem stop_is_two_phase (self : t) (ms : cb_result) (td : nat → bool) :
  (_running self = false → stop self ms td = (self, [], Returns))
  ∧ (_running self = true →
     let self1 := (stop self ms td).1.1 in
     let tr := (stop self ms td).1.2 in
     _running self1 = false
     ∧ (stop self ms td).2 = ms
     ∧ tr !! 1%nat = Some (GatherStop [Orderbook; Trades])
     ∧ tr !! 3%nat = Some (AwaitStop Merger ms)
     ∧ always_after (GatherStop [Orderbook; Trades]) is_merger_stop tr
     ∧ always_after (AwaitStop Merger Returns) is_task_shutdown tr
     ∧ (ms = Raises → ∀ a, a ∈ tr → ¬ is_task_shutdown a)
     ∧ (ms = Returns →
        (∀ i, Cancel i ∈ tr ↔ (i < length (tasks self))%nat ∧ td i = false)
        ∧ GatherTasks (tasks self) ∈ tr
        ∧ always_after (AwaitStop Merger Returns)
            (fun a => a = GatherTasks (tasks self)) tr
        ∧ ∀ k j i, tr !! k = Some (Cancel i) →
                   tr !! j = Some (GatherTasks (tasks self)) → (k < j)%nat)
     ∧ ∀ ms' td', stop self1 ms' td' = (self1, [], Returns)).
Proof.
  split.
  { intros Hr. unfold stop. by rewrite Hr. }
  intros Hr self1 tr. subst self1 tr. rewrite (stop_trace self ms td Hr). simpl.
  split; [done|]. split; [done|]. split; [done|]. split; [done|].
  split.
  { apply (always_after_split _ _ [Log INFO "Stopping runner..."]).
    - intros x Hx. apply list_elem_of_singleton in Hx as ->. simpl. tauto.
    - simpl. tauto. }
  assert (Hpre : ∀ x : action,
             x ∈ [Log INFO "Stopping runner..."; GatherStop [Orderbook; Trades];
                  Log INFO "Data sources stopped."] → ¬ is_task_shutdown x).
  { intros x Hx. repeat (apply elem_of_cons in Hx as [->|Hx]; [simpl; tauto|]).
    by apply elem_of_nil in Hx. }
  split.
  { destruct ms.
    - apply (always_after_split _ _
               [Log INFO "Stopping runner..."; GatherStop [Orderbook; Trades];
                Log INFO "Data sources stopped."]); [exact Hpre|simpl; tauto].
    - apply always_after_none. intros x Hx.
      apply elem_of_cons in Hx as [->|Hx]; [simpl; tauto|].
      apply elem_of_cons in Hx as [->|Hx]; [simpl; tauto|].
      apply elem_of_cons in Hx as [->|Hx]; [simpl; tauto|].
      apply list_elem_of_singleton in Hx as ->. simpl. tauto. }
  split.
  { intros -> a Ha.
    apply elem_of_cons in Ha as [->|Ha]; [simpl; tauto|].
    apply elem_of_cons in Ha as [->|Ha]; [simpl; tauto|].
    apply elem_of_cons in Ha as [->|Ha]; [simpl; tauto|].
    apply list_elem_of_singleton in Ha as ->. simpl. tauto. }
  split.
  { intros ->. split_and!.
    - intros i. split.
      + intros Hin. do 5 (apply elem_of_cons in Hin as [[=]|Hin]).
        apply elem_of_app in Hin as [Hin|Hin].
        * apply cancel_tasks_spec in Hin as (j & [= ->] & Hj & Hd).
          split; [lia|done].
        * apply elem_of_cons in Hin as [[=]|Hin].
          by apply list_elem_of_singleton in Hin.
      + intros [Hi Hd]. do 5 (apply elem_of_cons; right).
        apply elem_of_app. left. apply cancel_tasks_spec.
        exists i. split; [done|]. split; [lia|done].
    - do 5 (apply elem_of_cons; right). apply elem_of_app. right.
      apply elem_of_cons. by left.
    - apply (always_after_split _ _
               [Log INFO "Stopping runner..."; GatherStop [Orderbook; Trades];
                Log INFO "Data sources stopped."]); [|done].
      intros x Hx. repeat (apply elem_of_cons in Hx as [->|Hx]; [done|]).
      by apply elem_of_nil in Hx.
    - intros k j i Hk Hj.
      do 5 (destruct k as [|k]; [done|]). do 5 (destruct j as [|j]; [done|]).
      simpl in Hk, Hj.
      assert (Hkl : (k < length (cancel_tasks (tasks self) 0 td))%nat).
      { destruct (decide (k < length (cancel_tasks (tasks self) 0 td))%nat)
          as [|Hge]; [done|].
        rewrite lookup_app_r in Hk by lia.
        destruct (k - length (cancel_tasks (tasks self) 0 td))%nat as [|[|n]];
          done. }
      assert (Hjl : (length (cancel_tasks (tasks self) 0 td) ≤ j)%nat).
      { destruct (decide (length (cancel_tasks (tasks self) 0 td) ≤ j)%nat)
          as [|Hlt]; [done|].
        rewrite lookup_app_l in Hj by lia.
        apply list_elem_of_lookup_2 in Hj.
        by apply cancel_tasks_spec in Hj as (? & [=] & _). }
      lia. }
  intros ms' td'. unfold stop. done.
Qed.

End HandlerFacts.

(** ** The wired pipeline *)

Section PipelineFacts.
Import TradeActivityAnalyzer CombinedStreamRunner RunnerSpec.
Variable json_dumps : SpikeData -> string.

(** With the runner's callback as the only one, the analyzer changes the
    runner by recording the timestamp of the event it emits. *)
Lemma analyzer_world (a : TradeActivityAnalyzer.t t) (now : Q) (agg : dict)
    (fs : files) (w : t) :
  callbacks a = [activity_spike_callback] →
  out_world (process_event json_dumps a now agg fs w)
  = match emitted (process_event json_dumps a now agg fs w) with
    | Some d => set__last_activity_spike_ts w (Some (sd_ts d))
    | None => w
    end.
Proof.
  intros Hcb.
  destruct (emitted (process_event json_dumps a now agg fs w)) as [d|] eqn:He.
  - apply emitted_Some_loud in He as (-> & Htot & Hcond).
    destruct (process_event_loud json_dumps a now agg fs w Htot Hcond)
      as (_ & _ & -> & _).
    by rewrite Hcb.
  - by rewrite (emitted_None_quiet _ _ _ _ _ _ He).
Qed.

Lemma deliver_orderbook (p : Pipeline) (fs : files) (ob : RealTimeOrderBook) (now : Q) :
  wired p →
  deliver json_dumps (OrderbookUpdated ob now) p fs
  = (set_runner p (_handle_orderbook_update (runner p) ob now).1, fs,
     (_handle_orderbook_update (runner p) ob now).2).
Proof.
  intros (_ & Hob & _). unfold deliver. rewrite Hob. simpl.
  destruct (_handle_orderbook_update (runner p) ob now) as [self1 tr].
  simpl. by rewrite app_nil_r.
Qed.

Lemma deliver_aggregate (p : Pipeline) (fs : files) (agg : dict) (now : Q) :
  wired p →
  deliver json_dumps (TradeAggregated agg now) p fs
  = (set_runner p
       (out_world (process_event json_dumps (activity_analyzer p) now agg fs
                     (_handle_trade_aggregate (runner p) agg))),
     out_files (process_event json_dumps (activity_analyzer p) now agg fs
                  (_handle_trade_aggregate (runner p) agg)),
     []).
Proof. intros (_ & _ & Hagg). unfold deliver. rewrite Hagg. reflexivity. Qed.

Lemma same_wiring_refl (p : Pipeline) : same_wiring p p.
Proof. by repeat split. Qed.

Lemma same_wiring_trans (p1 p2 p3 : Pipeline) :
  same_wiring p1 p2 → same_wiring p2 p3 → same_wiring p1 p3.
Proof.
  intros (?&?&?&?&?&?&?&?) (?&?&?&?&?&?&?&?).
  repeat split; etrans; eauto.
Qed.

Lemma same_wiring_wired (p p' : Pipeline) : same_wiring p p' → wired p → wired p'.
Proof.
  intros (Ha & _ & Hob & Hagg & _) (H1 & H2 & H3).
  repeat split; congruence.
Qed.

Lemma deliver_same_wiring (i : input) (p : Pipeline) (fs : files) :
  wired p → same_wiring p (deliver json_dumps i p fs).1.1.
Proof.
  intros Hw. destruct i as [ob now|agg now].
  - rewrite deliver_orderbook by done. simpl.
    destruct (get_mid_price ob) as [m|] eqn:Hm.
    + destruct (truthy m) eqn:Ht.
      * rewrite (handle_orderbook_update_emit _ ob now m Hm Ht). simpl.
        destruct (recent_spike (runner p) now); by repeat split.
      * rewrite handle_orderbook_update_skip by (by rewrite Hm).
        by repeat split.
    + rewrite handle_orderbook_update_skip by (by rewrite Hm). by repeat split.
  - rewrite deliver_aggregate by done. simpl.
    rewrite analyzer_world by apply Hw.
    destruct (emitted _); by repeat split.
Qed.

Lemma run_inputs_same_wiring (inputs : list input) (p : Pipeline) (fs : files) :
  wired p → same_wiring p (run_inputs json_dumps inputs p fs).1.1.
Proof.
  revert p fs. induction inputs as [|i rest IH]; intros p fs Hw; simpl.
  - apply same_wiring_refl.
  - pose proof (deliver_same_wiring i p fs Hw) as Hd.
    destruct (deliver json_dumps i p fs) as [[p1 fs1] tr1]. simpl in Hd.
    pose proof (IH p1 fs1 (same_wiring_wired _ _ Hd Hw)) as Hr.
    destruct (run_inputs json_dumps rest p1 fs1) as [[p2 fs2] tr2]. simpl in *.
    by eapply same_wiring_trans.
Qed.

Lemma run_inputs_app (xs ys : list input) (p : Pipeline) (fs : files) :
  run_inputs json_dumps (xs ++ ys) p fs
  = let '(p1, fs1, tr1) := run_inputs json_dumps xs p fs in
    let '(p2, fs2, tr2) := run_inputs json_dumps ys p1 fs1 in
    (p2, fs2, tr1 ++ tr2).
Proof.
  revert p fs. induction xs as [|x xs IH]; intros p fs; simpl.
  - by destruct (run_inputs json_dumps ys p fs) as [[? ?] ?].
  - destruct (deliver json_dumps x p fs) as [[p1 fs1] tr1].
    rewrite IH.
    destruct (run_inputs json_dumps xs p1 fs1) as [[p2 fs2] tr2].
    destruct (run_inputs json_dumps ys p2 fs2) as [[p3 fs3] tr3].
    by rewrite app_assoc.
Qed.

Lemma run_inputs_one (i : input) (p : Pipeline) (fs : files) :
  (run_inputs json_dumps [i] p fs).1 = (deliver json_dumps i p fs).1.
Proof. simpl. by destruct (deliver json_dumps i p fs) as [[? ?] ?]. Qed.

(** A runner that was constructed and started is wired. *)
Lemma started_wired ctor (symbol : string) (model_path : option string) (fs : files) :
  wired (started ctor symbol model_path fs).1.
Proof.
  unfold started, init.
  pose proof (init_fields (W:=t) default_volume_threshold
                default_imbalance_ratio_high default_imbalance_ratio_low
                default_spike_multiplier false default_save_path fs)
    as (_ & _ & _ & _ & _ & _ & Hcb).
  destruct (TradeActivityAnalyzer.init _ _ _ _ _ _ _) as [an fs1].
  simpl in Hcb.
  destruct model_path as [path|]; [destruct (truthy_str path);
    [destruct (ctor path)|]|];
    simpl; unfold wired, run, _setup_callbacks; simpl; rewrite Hcb; done.
Qed.
Lemma started_eq ctor (symbol : string) (model_path : option string) (fs : files) :
  started ctor symbol model_path fs
  = ((run (init ctor symbol model_path fs).1.1).1,
     (init ctor symbol model_path fs).1.2).
Proof. unfold started. by destruct (init _ _ _ _) as [[p fs1] tr]. Qed.

Lemma added_orderbook_events_spec (tr : list action) (ev : dict) :
  ev ∈ added_orderbook_events tr ↔ MergerAddOrderbook ev ∈ tr.
Proof.
  induction tr as [|a tr IH]; simpl.
  - split; intros H; by apply elem_of_nil in H.
  - destruct a; rewrite ?elem_of_cons, IH; split;
      try (intros [H|H]; [by (left; congruence) || done|by right]);
      try (intros H; by right); try (intros [[=]|H]; done).
Qed.

Lemma orderbook_event_contains_cache (self : t) (ob : RealTimeOrderBook) (now : Q)
    (ev : dict) (k : string) (v : Q) :
  MergerAddOrderbook ev ∈ (_handle_orderbook_update self ob now).2 →
  _latest_trade_agg self !! k = Some v → ev !! k = Some v.
Proof.
  intros Hev Hk.
  apply handle_orderbook_update_events in Hev as (m & _ & _ & [= ->]).
  by rewrite dict_update_lookup, Hk.
Qed.

Lemma handle_orderbook_update_keeps_cache (self : t) (ob : RealTimeOrderBook) (now : Q) :
  _latest_trade_agg (_handle_orderbook_update self ob now).1 = _latest_trade_agg self.
Proof.
  destruct (get_mid_price ob) as [m|] eqn:Hm.
  - destruct (truthy m) eqn:Ht.
    + rewrite (handle_orderbook_update_emit self ob now m Hm Ht). simpl.
      by destruct (recent_spike self now).
    + by rewrite handle_orderbook_update_skip by (by rewrite Hm).
  - by rewrite handle_orderbook_update_skip by (by rewrite Hm).
Qed.

Lemma deliver_aggregate_caches (p : Pipeline) (fs : files) (agg : dict) (now : Q) :
  wired p →
  _latest_trade_agg (runner (deliver json_dumps (TradeAggregated agg now) p fs).1.1)
  = agg.
Proof.
  intros Hw. rewrite deliver_aggregate by done. simpl.
  rewrite analyzer_world by apply Hw. by destruct (emitted _).
Qed.

Lemma orderbook_updates_carry_cache (obs : list input) (p : Pipeline) (fs : files) :
  wired p → Forall (fun i => is_orderbook_update i = true) obs →
  ∀ ev k v, ev ∈ added_orderbook_events (run_inputs json_dumps obs p fs).2 →
            _latest_trade_agg (runner p) !! k = Some v → ev !! k = Some v.
Proof.
  revert p fs. induction obs as [|i rest IH]; intros p fs Hw Hall ev k v Hev Hk.
  - by apply elem_of_nil in Hev.
  - apply Forall_cons in Hall as [Hi Hrest]. simpl in Hev.
    destruct i as [ob now|]; [|done].
    pose proof (deliver_same_wiring (OrderbookUpdated ob now) p fs Hw) as Hsw.
    rewrite deliver_orderbook in Hev, Hsw by done. simpl in Hsw.
    specialize (IH (set_runner p (_handle_orderbook_update (runner p) ob now).1) fs
                  (same_wiring_wired _ _ Hsw Hw) Hrest ev k v).
    destruct (run_inputs json_dumps rest _ fs) as [[p2 fs2] tr2]. simpl in *.
    apply added_orderbook_events_spec, elem_of_app in Hev as [Hev|Hev].
    + by eapply orderbook_event_contains_cache.
    + apply IH; [by apply added_orderbook_events_spec|].
      by rewrite handle_orderbook_update_keeps_cache.
Qed.

(** C5.  Once the trades stream has delivered an aggregate to a started
    runner, every order-book feature event emitted afterwards, until the next
    aggregate is delivered, contains every key-value pair of that aggregate:
    where the aggregate and the fields derived from the order book share a
    key, the aggregate's value is the one in the event.  In particular an
    aggregate with a key [ts] sets the event's [ts].  The same holds for the
    two handlers called one after the other on any runner. *)
Theorem cached_aggregate_overrides ctor (symbol : string)
    (model_path : option string) (fs : files) (pre : list input) (agg : dict)
    (now : Q) (obs : list input) :
  let s0 := started ctor symbol model_path fs in
  let s1 := (run_inputs json_dumps (pre ++ [TradeAggregated agg now]) s0.1 s0.2).1 in
  Forall (fun i => is_orderbook_update i = true) obs →
  _latest_trade_agg (runner s1.1) = agg
  ∧ (∀ ev, ev ∈ added_orderbook_events (run_inputs json_dumps obs s1.1 s1.2).2 →
       (∀ k v, agg !! k = Some v → ev !! k = Some v)
       ∧ (∀ v, agg !! "ts" = Some v → ev !! "ts" = Some v))
  ∧ (∀ self ob time_time ev,
       MergerAddOrderbook ev
       ∈ (_handle_orderbook_update (_handle_trade_aggregate self agg) ob time_time).2 →
       ∀ k v, agg !! k = Some v → ev !! k = Some v).
Proof.
  intros s0 s1 Hobs.
  pose proof (started_wired ctor symbol model_path fs) as Hw0. fold s0 in Hw0.
  assert (Hs1 : wired s1.1 ∧ _latest_trade_agg (runner s1.1) = agg).
  { subst s1. rewrite run_inputs_app.
    pose proof (run_inputs_same_wiring pre s0.1 s0.2 Hw0) as Hsw.
    destruct (run_inputs json_dumps pre s0.1 s0.2) as [[p1 fs1] tr1]. simpl in Hsw.
    pose proof (same_wiring_wired _ _ Hsw Hw0) as Hw1.
    pose proof (deliver_same_wiring (TradeAggregated agg now) p1 fs1 Hw1)
      as Hsw2.
    pose proof (deliver_aggregate_caches p1 fs1 agg now Hw1) as Hc.
    rewrite <- run_inputs_one in Hsw2, Hc.
    destruct (run_inputs json_dumps [TradeAggregated agg now] p1 fs1)
      as [[p2 fs2] tr2]. simpl in *.
    split; [by eapply same_wiring_wired|done]. }
  destruct Hs1 as [Hw1 Hc]. split; [done|]. split.
  - intros ev Hev.
    assert (Hall : ∀ k v, agg !! k = Some v → ev !! k = Some v).
    { intros k v Hk. eapply orderbook_updates_carry_cache; eauto. by rewrite Hc. }
    split; [exact Hall|]. intros v. apply Hall.
  - intros self ob time_time ev Hev k v Hk.
    by eapply orderbook_event_contains_cache.
Qed.

(** C8.  When the constructor of [ModelRunner] raises, [__init__] logs the
    error and returns a runner whose [model_runner] is [None] (the merger's
    too).  [_setup_callbacks] then registers no callback with the merger's
    [on_merge], and so it stays after the runner is started, whatever is
    delivered to it; [_handle_inference] returns without calling
    [predict]. *)
Theorem model_runner_failure_degrades ctor (symbol path : string) (fs : files)
    (e : exn) :
  truthy_str path = true → ctor path = inr e →
  let p := (init ctor symbol (Some path) fs).1.1 in
  (init ctor symbol (Some path) fs).2
  = [Log ERROR "Failed to initialize ModelRunner. Continuing without inference."]
  ∧ model_runner (runner p) = None
  ∧ merger_model_runner p = None
  ∧ merger_on_merge p = []
  ∧ merger_on_merge (_setup_callbacks p).1 = []
  ∧ (∀ merged_record, _handle_inference (runner p) merged_record = ([], Returns))
  ∧ ∀ inputs fs1,
      let p' := (run_inputs json_dumps inputs (run p).1 fs1).1.1 in
      merger_on_merge p' = []
      ∧ model_runner (runner p') = None
      ∧ ∀ merged_record, _handle_inference (runner p') merged_record = ([], Returns).
Proof.
  intros Hpath Hctor p.
  pose proof (started_wired ctor symbol (Some path) fs) as Hw.
  rewrite started_eq in Hw. simpl in Hw. fold p in Hw.
  assert (Hp : model_runner (runner p) = None ∧ merger_model_runner p = None
               ∧ merger_on_merge p = []
               ∧ (init ctor symbol (Some path) fs).2
                 = [Log ERROR "Failed to initialize ModelRunner. Continuing without inference."]).
  { subst p. unfold init.
    destruct (TradeActivityAnalyzer.init _ _ _ _ _ _ _) as [an fs1].
    by rewrite Hpath, Hctor. }
  destruct Hp as (Hmr & Hmm & Hom & Hlog).
  assert (Hsetup : ∀ q, model_runner (runner q) = None →
                        merger_on_merge (_setup_callbacks q).1 = merger_on_merge q).
  { intros q Hq. unfold _setup_callbacks. by rewrite Hq. }
  assert (Hinf : ∀ self, model_runner self = None →
                         ∀ r, _handle_inference self r = ([], Returns)).
  { intros self Hs r. unfold _handle_inference. by rewrite Hs. }
  assert (Hrun : merger_on_merge (run p).1 = []
                 ∧ model_runner (runner (run p).1) = None).
  { assert (Hnr : _running (runner p) = false).
    { subst p. unfold init.
      destruct (TradeActivityAnalyzer.init _ _ _ _ _ _ _) as [an fs1].
      by rewrite Hpath, Hctor. }
    unfold run. rewrite Hnr.
    unfold _setup_callbacks. simpl. rewrite Hmr. simpl. by rewrite Hmr. }
  split_and!; try done.
  - by rewrite Hsetup.
  - by apply Hinf.
  - intros inputs fs1 p'.
    destruct (run_inputs_same_wiring inputs (run p).1 fs1 Hw)
      as (_ & _ & _ & _ & Hom' & Hmr' & _).
    destruct Hrun as [Hr1 Hr2].
    assert (model_runner (runner p') = None) by (subst p'; congruence).
    split_and!; [subst p'; congruence|done|by apply Hinf].
Qed.

End PipelineFacts.

(** ** The runner on concrete inputs *)

Section RunnerExamples.
Import TradeActivityAnalyzer AnalyzerSpec CombinedStreamRunner RunnerSpec.

(** C3, counterexample.  A burst stamped [ts = 0] makes the analyzer emit a
    spike with the timestamp zero, which the runner stores.  An order-book
    update half a second later is within the TTL, yet its event carries
    [activity_spike = 0]: the stored zero is falsy.  Second, with a spike at
    1000 and an update at 1000.5, a cached aggregate that has a key
    [activity_spike] replaces the handler's 1 by its own value. *)
Lemma zero_timestamp_spike_counterexample :
  let s0 := started failing_loader "btcusdt" None ∅ in
  let s1 := (run_inputs dumps_text_fields [TradeAggregated agg_burst_at_zero 0]
               s0.1 s0.2).1 in
  let out := run_inputs dumps_text_fields
               [OrderbookUpdated (book (Some 100) (1 # 2)) (1 # 2)] s1.1 s1.2 in
  let self2 := set__latest_trade_agg
                 (_handle_activity_spike new_runner (spike_at 1000)).1
                 agg_with_flag in
  (_last_activity_spike_ts (runner s1.1) = Some 0
   ∧ (1 # 2) - 0 < _activity_spike_ttl (runner s1.1)
   ∧ field_of_events "activity_spike" out.2 = [Some 0]
   ∧ ¬ (∀ ev, ev ∈ added_orderbook_events out.2 → ev !! "activity_spike" = Some 1))
  ∧ (_last_activity_spike_ts self2 = Some 1000
     ∧ (2001 # 2) - 1000 < _activity_spike_ttl self2
     ∧ field_of_events "activity_spike"
         (_handle_orderbook_update self2 (book (Some 100) 1000) (2001 # 2)).2
       = [Some 0]).
Proof.
  intros s0 s1 out self2.
  assert (Hf : field_of_events "activity_spike" out.2 = [Some 0])
    by (vm_compute; reflexivity).
  split; [split_and!|split_and!].
  - vm_compute. reflexivity.
  - vm_compute. reflexivity.
  - exact Hf.
  - intros H. unfold field_of_events in Hf.
    destruct (added_orderbook_events out.2) as [|ev evs] eqn:He; [done|].
    injection Hf as Hev _.
    specialize (H ev ltac:(apply elem_of_cons; by left)). congruence.
  - reflexivity.
  - vm_compute. reflexivity.
  - vm_compute. reflexivity.
Qed.

Lemma activity_flag_follows_ttl_witness :
  let self0 := (_handle_activity_spike new_runner (spike_at 1000)).1 in
  ¬ sd_ts (spike_at 1000) == 0
  ∧ field_of_events "activity_spike"
      (_handle_orderbook_update self0 (book (Some 100) 1000) (2001 # 2)).2
    = [Some 1]
  ∧ field_of_events "activity_spike"
      (_handle_orderbook_update self0 (book (Some 100) 1000) 1001).2
    = [Some 0].
Proof.
  intros self0.
  assert (Hz : ¬ sd_ts (spike_at 1000) == 0) by (vm_compute; discriminate).
  destruct (activity_flag_follows_ttl new_runner (spike_at 1000)
              (book (Some 100) 1000) (2001 # 2) 100 eq_refl eq_refl Hz eq_refl eq_refl)
    as (ev & self1 & Hrun & _ & Hin & _).
  destruct (activity_flag_follows_ttl new_runner (spike_at 1000)
              (book (Some 100) 1000) 1001 100 eq_refl eq_refl Hz eq_refl eq_refl)
    as (ev' & self1' & Hrun' & _ & _ & Hout & _).
  split; [exact Hz|]. fold self0 in Hrun, Hrun'.
  unfold field_of_events. rewrite Hrun, Hrun'. simpl.
  destruct Hin as [-> _]; [vm_compute; reflexivity|].
  destruct Hout as [-> _]; [vm_compute; discriminate|].
  done.
Defined.

Lemma stop_is_two_phase_witness :
  _running running_runner = true
  ∧ (stop running_runner Returns (fun i => Nat.eqb i 1)).1.2
    = [Log INFO "Stopping runner..."; GatherStop [Orderbook; Trades];
       Log INFO "Data sources stopped."; AwaitStop Merger Returns;
       Log INFO "Merger stopped."; Cancel 0; Cancel 2;
       GatherTasks (tasks running_runner);
       Log INFO "All tasks have been cancelled. Runner stopped."]
  ∧ always_after (AwaitStop Merger Returns) is_task_shutdown
      (stop running_runner Returns (fun i => Nat.eqb i 1)).1.2
  ∧ stop new_runner Returns (fun i => Nat.eqb i 1) = (new_runner, [], Returns).
Proof.
  destruct (stop_is_two_phase running_runner Returns (fun i => Nat.eqb i 1))
    as [_ Hrun].
  destruct (stop_is_two_phase new_runner Returns (fun i => Nat.eqb i 1))
    as [Hidle _].
  destruct (Hrun eq_refl) as (_ & _ & _ & _ & _ & Hafter & _).
  split; [reflexivity|]. split; [reflexivity|].
  split; [exact Hafter|]. apply Hidle. reflexivity.
Defined.

Lemma cached_aggregate_overrides_witness :
  let s0 := started failing_loader "btcusdt" None ∅ in
  let s1 := (run_inputs dumps_text_fields [TradeAggregated agg_window 1000]
               s0.1 s0.2).1 in
  let out := run_inputs dumps_text_fields
               [OrderbookUpdated (book (Some 100) 5) 1001;
                OrderbookUpdated (book None 6) 1002;
                OrderbookUpdated (book (Some 101) 7) 1003] s1.1 s1.2 in
  field_of_events "mid_price" out.2 = [Some 100; Some 101]
  ∧ ∀ ev, ev ∈ added_orderbook_events out.2 → ev !! "ts" = Some 1000.
Proof.
  intros s0 s1 out. split; [vm_compute; reflexivity|].
  intros ev Hev.
  assert (Hobs : Forall (fun i => is_orderbook_update i = true)
                   [OrderbookUpdated (book (Some 100) 5) 1001;
                    OrderbookUpdated (book None 6) 1002;
                    OrderbookUpdated (book (Some 101) 7) 1003])
    by (repeat constructor).
  destruct (cached_aggregate_overrides dumps_text_fields failing_loader "btcusdt"
              None ∅ [] agg_window 1000 _ Hobs) as (_ & H & _).
  destruct (H ev Hev) as [_ Hts]. apply Hts. reflexivity.
Defined.

Lemma model_runner_failure_degrades_witness :
  let p := (init failing_loader "btcusdt" (Some "model.joblib") ∅).1.1 in
  truthy_str "model.joblib" = true
  ∧ model_runner (runner p) = None
  ∧ merger_on_merge (run p).1 = []
  ∧ merger_on_merge
      (run (init working_loader "btcusdt" (Some "model.joblib") ∅).1.1).1
    = [handle_inference].
Proof.
  intros p.
  destruct (model_runner_failure_degrades dumps_text_fields failing_loader
              "btcusdt" "model.joblib" ∅ (Exception "cannot load model.joblib")
              eq_refl eq_refl)
    as (_ & Hmr & _ & _ & _ & _ & Hever).
  destruct (Hever [] ∅) as (Hom & _).
  split; [reflexivity|]. split; [exact Hmr|]. split; [exact Hom|]. reflexivity.
Defined.

(** C10, counterexample.  The trades stream delivers an aggregate that has a
    key [mid_price] with the value zero; the order book then reports the mid
    price 100.  The handler passes its check, and the event it hands to the
    merger carries [mid_price = 0], the aggregate's entry. *)
Lemma overridden_mid_price_counterexample :
  let s0 := started failing_loader "btcusdt" None ∅ in
  let s1 := (run_inputs dumps_text_fields [TradeAggregated agg_with_mid_price 1000]
               s0.1 s0.2).1 in
  let out := run_inputs dumps_text_fields
               [OrderbookUpdated (book (Some 100) 5) 1001] s1.1 s1.2 in
  field_of_events "mid_price" out.2 = [Some 0]
  ∧ ¬ (∀ ev, ev ∈ added_orderbook_events out.2 →
         ∃ m, ev !! "mid_price" = Some m ∧ ¬ m == 0).
Proof.
  intros s0 s1 out.
  assert (Hf : field_of_events "mid_price" out.2 = [Some 0])
    by (vm_compute; reflexivity).
  split; [exact Hf|]. intros H. unfold field_of_events in Hf.
  destruct (added_orderbook_events out.2) as [|ev evs] eqn:He; [done|].
  injection Hf as Hev _.
  destruct (H ev ltac:(apply elem_of_cons; by left)) as (m & Hm & Hnz).
  rewrite Hev in Hm. injection Hm as <-. by apply Hnz.
Qed.

Lemma falsy_mid_price_not_forwarded_witness :
  truthy_opt (get_mid_price (book (Some 0) 5)) = false
  ∧ _handle_orderbook_update new_runner (book (Some 0) 5) 1001 = (new_runner, [])
  ∧ _handle_orderbook_update new_runner (book None 5) 1001 = (new_runner, [])
  ∧ field_of_events "mid_price"
      (_handle_orderbook_update new_runner (book (Some 100) 5) 1001).2
    = [Some 100].
Proof.
  destruct (falsy_mid_price_not_forwarded new_runner (book (Some 0) 5) 1001)
    as [Hzero _].
  destruct (falsy_mid_price_not_forwarded new_runner (book None 5) 1001)
    as [Hnone _].
  split; [reflexivity|]. split; [apply Hzero; reflexivity|].
  split; [apply Hnone; reflexivity|]. reflexivity.
Defined.
End RunnerExamples.

(** * Further properties of the analyzer *)

Section AnalyzerMore.
Import TradeActivityAnalyzer AnalyzerSpec PipelineSpec.
Context {W : Type}.
Variable json_dumps : SpikeData -> string.

Lemma detects_emitted (self : t W) now event fs w :
  emitted (process_event json_dumps self now event fs w)
  = if detects self event then Some (spike_data self now event) else None.
Proof. apply emitted_spec. Qed.

Lemma run_callbacks_all_return (cbs : list (Callback W)) (i : nat) (d : SpikeData) (w : W) :
  (∀ cb w', cb ∈ cbs → (cb d w').2 = Returns) →
  run_callbacks cbs i d w
  = (thread_callbacks cbs d w, map (fun j => Invoke j d) (seq i (length cbs)), Returns).
Proof.
  revert i w. induction cbs as [|cb rest IH]; intros i w Hall; simpl; [done|].
  pose proof (Hall cb w ltac:(apply elem_of_cons; by left)) as Hcb.
  destruct (cb d w) as [w1 r] eqn:Hc. simpl in Hcb. subst r.
  rewrite IH; [done|].
  intros cb' w' Hin. apply Hall. apply elem_of_cons. by right.
Qed.

Lemma run_callbacks_raise (pre post : list (Callback W)) (cb : Callback W)
    (i : nat) (d : SpikeData) (w : W) :
  (∀ c w', c ∈ pre → (c d w').2 = Returns) →
  (∀ w', (cb d w').2 = Raises) →
  run_callbacks (pre ++ cb :: post) i d w
  = ((cb d (thread_callbacks pre d w)).1,
     map (fun j => Invoke j d) (seq i (S (length pre))), Raises).
Proof.
  revert i w. induction pre as [|c pre IH]; intros i w Hpre Hcb; simpl.
  - pose proof (Hcb w) as H. destruct (cb d w) as [w1 r]. simpl in H. by subst r.
  - pose proof (Hpre c w ltac:(apply elem_of_cons; by left)) as Hc.
    destruct (c d w) as [w1 r] eqn:Hcw. simpl in Hc. subst r.
    rewrite IH; [done| |done].
    intros c' w' Hin. apply Hpre. apply elem_of_cons. by right.
Qed.

Lemma invoked_app (tr1 tr2 : list action) :
  invoked (tr1 ++ tr2) = invoked tr1 ++ invoked tr2.
Proof.
  induction tr1 as [|a tr1 IH]; [done|]. destruct a; simpl; by rewrite ?IH.
Qed.

Lemma invoked_invokes (d : SpikeData) (l : list nat) :
  invoked (map (fun j => Invoke j d) l) = l.
Proof. induction l as [|j l IH]; [done|]. simpl. by rewrite IH. Qed.

Lemma on_activity_many (self : t W) (cbs : list (Callback W)) :
  callbacks (foldl on_activity self cbs) = callbacks self ++ cbs
  ∧ save_path (foldl on_activity self cbs) = save_path self
  ∧ enable_logging (foldl on_activity self cbs) = enable_logging self.
Proof.
  revert self. induction cbs as [|cb rest IH]; intros self; simpl.
  - by rewrite app_nil_r.
  - destruct (IH (on_activity self cb)) as (-> & -> & ->). simpl.
    by rewrite <- app_assoc.
Qed.

(** X1.  Callbacks are called in the order of their registration.  When none
    of them raises, an emitted event is handed to every registered callback,
    the first registered first; each sees the world as the callbacks before
    it left it, and the call returns normally. *)
Theorem callbacks_called_in_registration_order (self : t W) (cbs : list (Callback W))
    (now : Q) (event : dict) (fs : files) (w : W) :
  let self' := foldl on_activity self cbs in
  let r := process_event json_dumps self' now event fs w in
  let d := spike_data self' now event in
  detects self' event = true →
  (∀ cb w', cb ∈ callbacks self ++ cbs → (cb d w').2 = Returns) →
  callbacks self' = callbacks self ++ cbs
  ∧ outcome r = Returns
  ∧ out_world r = thread_callbacks (callbacks self ++ cbs) d w
  ∧ invoked (trace r) = seq 0 (length (callbacks self ++ cbs)).
Proof.
  intros self' r d Hdet Hall.
  destruct (on_activity_many self cbs) as (Hcbs & _ & _). fold self' in Hcbs.
  split; [done|].
  unfold detects in Hdet. apply andb_true_iff in Hdet as [Htot Hcond].
  apply negb_true_iff in Htot.
  destruct (process_event_loud json_dumps self' now event fs w Htot Hcond)
    as (_ & _ & Hw & Hout & Htr).
  fold r d in Hw, Hout, Htr.
  rewrite Hcbs, run_callbacks_all_return in Hw, Hout, Htr by done.
  simpl in Hw, Hout, Htr. split; [done|]. split; [done|].
  rewrite Htr, !invoked_app, invoked_invokes.
  destruct (truthy_str (save_path self')), (enable_logging self'); simpl;
    by rewrite app_nil_r.
Qed.
(** X2.  A callback that raises ends the delivery: the callbacks registered
    before it have been called in order, those registered after it are not
    called, the warning is not logged, and the exception leaves
    [process_event]. *)
Theorem raising_callback_stops_delivery (self : t W) (pre post : list (Callback W))
    (cb : Callback W) (now : Q) (event : dict) (fs : files) (w : W) :
  let r := process_event json_dumps self now event fs w in
  let d := spike_data self now event in
  callbacks self = pre ++ cb :: post →
  detects self event = true →
  (∀ c w', c ∈ pre → (c d w').2 = Returns) →
  (∀ w', (cb d w').2 = Raises) →
  outcome r = Raises
  ∧ emitted r = Some d
  ∧ invoked (trace r) = seq 0 (S (length pre))
  ∧ (∀ j, (length pre < j)%nat → Invoke j d ∉ trace r)
  ∧ (∀ x, LogWarning x ∉ trace r)
  ∧ out_world r = (cb d (thread_callbacks pre d w)).1.
Proof.
  intros r d Hcbs Hdet Hpre Hcb.
  unfold detects in Hdet. apply andb_true_iff in Hdet as [Htot Hcond].
  apply negb_true_iff in Htot.
  destruct (process_event_loud json_dumps self now event fs w Htot Hcond)
    as (He & _ & Hw & Hout & Htr).
  fold r d in He, Hw, Hout, Htr.
  rewrite Hcbs, (run_callbacks_raise pre post cb 0 d w Hpre Hcb) in Hw, Hout, Htr.
  cbn [fst snd] in Hw, Hout, Htr. rewrite app_nil_r in Htr.
  split; [done|]. split; [done|]. split_and!.
  - rewrite Htr, invoked_app, invoked_invokes.
    by destruct (truthy_str (save_path self)).
  - intros j Hj Hin. rewrite Htr in Hin.
    apply elem_of_app in Hin as [Hin|Hin].
    + destruct (truthy_str (save_path self)).
      * by apply list_elem_of_singleton in Hin.
      * by apply elem_of_nil in Hin.
    + apply list_elem_of_fmap in Hin as (k & [= ->] & Hk).
      apply elem_of_seq in Hk. lia.
  - intros x Hin. rewrite Htr in Hin.
    apply elem_of_app in Hin as [Hin|Hin].
    + destruct (truthy_str (save_path self)).
      * by apply list_elem_of_singleton in Hin.
      * by apply elem_of_nil in Hin.
    + by apply list_elem_of_fmap in Hin as (k & [=] & _).
  - done.
Qed.

(** X4.  An aggregate that has neither a key [buy_volume] nor a key
    [sell_volume] (the empty dict, for one) counts as a zero total: nothing
    is emitted, written or called, whatever the thresholds. *)
Theorem missing_volume_keys_ignored (self : t W) (now : Q) (event : dict)
    (fs : files) (w : W) :
  event !! "buy_volume" = None → event !! "sell_volume" = None →
  process_event json_dumps self now event fs w
  = {| out_files := fs; out_world := w; trace := [];
       emitted := None; outcome := Returns |}.
Proof.
  intros Hb Hs. apply process_event_quiet. left.
  unfold total_volume, buy_volume, sell_volume. by rewrite Hb, Hs.
Qed.

(** X5.  Without a positive volume baseline (the keys [buy_mean] and
    [sell_mean] are missing, or their sum is not positive) no event has the
    reason ["spike"]: an emitted event is an imbalance or an exceeded
    volume. *)
Theorem no_baseline_never_spike (self : t W) (now : Q) (event : dict)
    (fs : files) (w : W) (d : SpikeData) :
  default 0 (event !! "buy_mean") + default 0 (event !! "sell_mean") <= 0 →
  emitted (process_event json_dumps self now event fs w) = Some d →
  sd_reason d ≠ "spike"
  ∧ (sd_reason d = "imbalance" ∨ sd_reason d = "volume_exceeded")
  ∧ (imbalance self event = true ∨ volume_exceeded self event = true).
Proof.
  intros Hma He.
  assert (Hno : spike self event = false).
  { unfold spike, ma_volume. apply Qgtb_false in Hma. by rewrite Hma. }
  apply emitted_Some_loud in He as (-> & _ & Hcond). simpl.
  rewrite Hno in Hcond. simpl in Hcond. apply orb_true_iff in Hcond.
  unfold reason. rewrite Hno.
  split_and!; [|by destruct (imbalance self event); auto|exact Hcond].
  by destruct (imbalance self event).
Qed.

Lemma ratio_gt_one (event : dict) :
  0 < sell_volume event →
  (1 < buy_volume event / sell_volume event ↔ sell_volume event < buy_volume event).
Proof.
  intros Hs.
  assert (Hmul : buy_volume event / sell_volume event * sell_volume event
                 == buy_volume event).
  { rewrite Qmult_comm. apply Qmult_div_r. lra. }
  split; intros H.
  - pose proof (Qmult_lt_compat_r _ _ (sell_volume event) Hs H) as Hlt.
    rewrite Hmul in Hlt. lra.
  - apply Qlt_shift_div_l; [done|]. lra.
Qed.

(** X6.  The direction of an event is ["buy"] exactly when more was bought
    than sold, as long as the sold volume is not negative: a positive sold
    volume compares the ratio with 1, and a sold volume of zero gives
    ["buy"] through the sentinel when anything was bought. *)
Theorem direction_buy_iff_buys_exceed_sells (self : t W) (now : Q)
    (event : dict) (fs : files) (w : W) (d : SpikeData) :
  0 <= default 0 (event !! "sell_volume") →
  emitted (process_event json_dumps self now event fs w) = Some d →
  (sd_direction d = "buy" ↔ sd_sell_volume d < sd_buy_volume d)
  ∧ (sd_direction d = "sell" ↔ sd_buy_volume d <= sd_sell_volume d).
Proof.
  intros Hs He. apply emitted_Some_loud in He as (-> & _ & _). simpl.
  fold (sell_volume event) in Hs.
  assert (Hbuy : direction event = "buy" ↔ sell_volume event < buy_volume event).
  { unfold direction, buy_sell_ratio.
    destruct (Qgtb (sell_volume event) 0) eqn:Hpos.
    - apply Qgtb_true in Hpos. rewrite <- (ratio_gt_one event Hpos), <- Qgtb_true.
      destruct (Qgtb (buy_volume event / sell_volume event) 1); split; done.
    - apply Qgtb_false in Hpos.
      destruct (Qgtb (buy_volume event) 0) eqn:Hb.
      + apply Qgtb_true in Hb. split; [intros _; lra|done].
      + apply Qgtb_false in Hb. split; [done|]. intros H. lra. }
  split; [exact Hbuy|].
  assert (Hor : direction event = "buy" ∨ direction event = "sell").
  { unfold direction. destruct (Qgtb _ _); auto. }
  split.
  - intros Hsell. apply Qnot_lt_le. intros Hlt. apply Hbuy in Hlt. congruence.
  - intros Hle. destruct Hor as [Hb|Hs']; [|done].
    apply Hbuy in Hb. lra.
Qed.

(** X7.  One-sided aggregates are always reported.  When nothing was sold
    and something was bought, the ratio is the sentinel [1_000_000]: with an
    upper imbalance threshold below it the event is emitted, with the
    direction ["buy"].  When nothing was bought and something was sold, the
    ratio is zero: with a positive lower imbalance threshold the event is
    emitted, with the direction ["sell"]. *)
Theorem one_sided_aggregate_is_reported (self : t W) (now : Q) (event : dict)
    (fs : files) (w : W) :
  let r := process_event json_dumps self now event fs w in
  let d := spike_data self now event in
  (sell_volume event == 0 → 0 < buy_volume event →
   imbalance_ratio_high self < 1000000 →
   emitted r = Some d ∧ sd_direction d = "buy" ∧ sd_buy_sell_ratio d = 1000000
   ∧ sd_reason d ≠ "volume_exceeded")
  ∧ (buy_volume event == 0 → 0 < sell_volume event →
     0 < imbalance_ratio_low self →
     emitted r = Some d ∧ sd_direction d = "sell" ∧ sd_buy_sell_ratio d == 0
     ∧ sd_reason d ≠ "volume_exceeded").
Proof.
  intros r d. subst r d. split.
  - intros Hs Hb Hhigh.
    assert (Hratio : buy_sell_ratio event = 1000000).
    { unfold buy_sell_ratio.
      assert (Qgtb (sell_volume event) 0 = false) as -> by (apply Qgtb_false; lra).
      apply Qgtb_true in Hb. by rewrite Hb. }
    assert (Himb : imbalance self event = true).
    { unfold imbalance. rewrite Hratio. apply orb_true_iff. left.
      by apply Qgtb_true. }
    assert (Hdet : detects self event = true).
    { unfold detects. rewrite Himb, orb_true_r. simpl.
      rewrite andb_true_r. apply negb_true_iff, Qeq_bool_false.
      unfold total_volume. lra. }
    rewrite detects_emitted, Hdet. simpl. split; [done|].
    unfold direction, reason. rewrite Hratio, Himb. split; [done|]. split; [done|].
    by destruct (spike self event).
  - intros Hb Hs Hlow.
    assert (Hratio : buy_sell_ratio event == 0).
    { unfold buy_sell_ratio. apply Qgtb_true in Hs. rewrite Hs.
      rewrite Hb. unfold Qdiv. ring. }
    assert (Himb : imbalance self event = true).
    { unfold imbalance. apply orb_true_iff. right. apply Qltb_true.
      by rewrite Hratio. }
    assert (Hdet : detects self event = true).
    { unfold detects. rewrite Himb, orb_true_r. simpl.
      rewrite andb_true_r. apply negb_true_iff, Qeq_bool_false.
      unfold total_volume. lra. }
    rewrite detects_emitted, Hdet. simpl. split; [done|].
    unfold direction, reason. rewrite Himb. split_and!.
    + assert (Qgtb (buy_sell_ratio event) 1 = false) as ->; [|done].
      apply Qgtb_false. rewrite Hratio. lra.
    + done.
    + by destruct (spike self event).
Qed.

(** X8.  Lowering a threshold never silences the analyzer.  If an aggregate
    is reported under some thresholds, it is reported under any thresholds
    with a volume threshold, a spike multiplier and an upper imbalance ratio
    that are not larger, and a lower imbalance ratio that is not smaller. *)
Theorem emission_monotone_in_thresholds (loose strict : t W) (now : Q)
    (event : dict) (fs : files) (w : W) :
  volume_threshold loose <= volume_threshold strict →
  spike_multiplier loose <= spike_multiplier strict →
  imbalance_ratio_high loose <= imbalance_ratio_high strict →
  imbalance_ratio_low strict <= imbalance_ratio_low loose →
  is_Some (emitted (process_event json_dumps strict now event fs w)) →
  is_Some (emitted (process_event json_dumps loose now event fs w)).
Proof.
  intros Hv Hm Hh Hl. rewrite !detects_emitted.
  destruct (detects strict event) eqn:Hd; [intros _|by intros [? ?]].
  assert (Hloose : detects loose event = true); [|rewrite Hloose; eauto].
  unfold detects in *. apply andb_true_iff in Hd as [Htot Hcond].
  rewrite Htot. simpl.
  apply orb_true_iff in Hcond as [Hcond|Hvol].
  - apply orb_true_iff in Hcond as [Hsp|Himb].
    + assert (spike loose event = true) as ->; [|done].
      unfold spike in *. apply andb_true_iff in Hsp as [Hma Hx].
      rewrite Hma. simpl. apply Qgtb_true. apply Qgtb_true in Hx. lra.
    + assert (imbalance loose event = true) as ->; [|by rewrite orb_true_r].
      unfold imbalance in *. apply orb_true_iff in Himb as [Hhi|Hlo].
      * apply orb_true_iff. left. apply Qgtb_true. apply Qgtb_true in Hhi. lra.
      * apply orb_true_iff. right. apply Qltb_true. apply Qltb_true in Hlo. lra.
  - assert (volume_exceeded loose event = true) as ->; [|by rewrite orb_true_r].
    unfold volume_exceeded in *. apply Qgtb_true. apply Qgtb_true in Hvol. lra.
Qed.

End AnalyzerMore.

Section AnalyzerMoreExamples.
Import TradeActivityAnalyzer AnalyzerSpec PipelineSpec.

Lemma callbacks_called_in_registration_order_witness :
  let self : t nat := foldl on_activity (with_defaults default_save_path [])
                        [cb_count; cb_count] in
  let r := process_event dumps_text_fields self 7 agg_balanced_burst ∅ 5%nat in
  detects self agg_balanced_burst = true
  ∧ invoked (trace r) = [0; 1]%nat
  ∧ out_world r = 7%nat.
Proof.
  intros self r.
  assert (Hdet : detects self agg_balanced_burst = true) by reflexivity.
  assert (Hall : ∀ (cb : Callback nat) (w' : nat),
             cb ∈ callbacks (with_defaults default_save_path []) ++ [cb_count; cb_count] →
             (cb (spike_data self 7 agg_balanced_burst) w').2 = Returns).
  { intros cb w' Hin. simpl in Hin.
    apply elem_of_cons in Hin as [->|Hin]; [reflexivity|].
    apply list_elem_of_singleton in Hin as ->. reflexivity. }
  destruct (callbacks_called_in_registration_order dumps_text_fields
              (with_defaults default_save_path []) [cb_count; cb_count]
              7 agg_balanced_burst ∅ 5%nat Hdet Hall) as (_ & _ & Hw & Hinv).
  split; [exact Hdet|]. split; [exact Hinv | exact Hw].
Defined.

Lemma raising_callback_stops_delivery_witness :
  let self : t nat := with_defaults default_save_path [cb_count; cb_fail; cb_count] in
  let r := process_event dumps_text_fields self 7 agg_balanced_burst ∅ 5%nat in
  detects self agg_balanced_burst = true
  ∧ outcome r = Raises
  ∧ invoked (trace r) = [0; 1]%nat
  ∧ out_world r = 6%nat.
Proof.
  intros self r.
  assert (Hdet : detects self agg_balanced_burst = true) by reflexivity.
  assert (Hpre : ∀ (c : Callback nat) (w' : nat), c ∈ [cb_count] →
             (c (spike_data self 7 agg_balanced_burst) w').2 = Returns).
  { intros c w' Hin. apply list_elem_of_singleton in Hin as ->. reflexivity. }
  destruct (raising_callback_stops_delivery dumps_text_fields self [cb_count]
              [cb_count] cb_fail 7 agg_balanced_burst ∅ 5%nat eq_refl Hdet Hpre
              (fun w' => eq_refl)) as (Hout & _ & Hinv & _ & _ & Hw).
  split; [exact Hdet|]. split; [exact Hout|]. split; [exact Hinv | exact Hw].
Defined.

Lemma missing_volume_keys_ignored_witness :
  trace (process_event dumps_text_fields
           (with_defaults default_save_path [cb_count]) 7
           (<["ts" := 1000]> (<["avg_price" := 100]> ∅)) ∅ 5%nat) = [].
Proof.
  assert (Hb : (<["ts" := 1000]> (<["avg_price" := 100]> ∅) : dict) !! "buy_volume"
               = None) by reflexivity.
  assert (Hs : (<["ts" := 1000]> (<["avg_price" := 100]> ∅) : dict) !! "sell_volume"
               = None) by reflexivity.
  rewrite (missing_volume_keys_ignored dumps_text_fields
             (with_defaults default_save_path [cb_count]) 7
             (<["ts" := 1000]> (<["avg_price" := 100]> ∅)) ∅ 5%nat Hb Hs).
  reflexivity.
Defined.

Lemma no_baseline_never_spike_witness :
  let self : t nat := with_defaults default_save_path [cb_count] in
  let d := spike_data self 7 agg_buy_only in
  default 0 (agg_buy_only !! "buy_mean") + default 0 (agg_buy_only !! "sell_mean") <= 0
  ∧ emitted (process_event dumps_text_fields self 7 agg_buy_only ∅ 5%nat) = Some d
  ∧ sd_reason d ≠ "spike".
Proof.
  intros self d.
  assert (Hma : default 0 (agg_buy_only !! "buy_mean")
                + default 0 (agg_buy_only !! "sell_mean") <= 0)
    by (vm_compute; discriminate).
  assert (He : emitted (process_event dumps_text_fields self 7 agg_buy_only ∅ 5%nat)
               = Some d) by reflexivity.
  destruct (no_baseline_never_spike dumps_text_fields self 7 agg_buy_only ∅
              5%nat d Hma He) as (Hne & _).
  split; [exact Hma|]. split; [exact He | exact Hne].
Defined.

Lemma direction_buy_iff_buys_exceed_sells_witness :
  let self : t nat := with_defaults default_save_path [cb_count] in
  let d := spike_data self 7 agg_buy_only in
  0 <= default 0 (agg_buy_only !! "sell_volume")
  ∧ emitted (process_event dumps_text_fields self 7 agg_buy_only ∅ 5%nat) = Some d
  ∧ sd_direction d = "buy".
Proof.
  intros self d.
  assert (Hs : 0 <= default 0 (agg_buy_only !! "sell_volume"))
    by (vm_compute; discriminate).
  assert (He : emitted (process_event dumps_text_fields self 7 agg_buy_only ∅ 5%nat)
               = Some d) by reflexivity.
  destruct (direction_buy_iff_buys_exceed_sells dumps_text_fields self 7
              agg_buy_only ∅ 5%nat d Hs He) as ([_ Hbuy] & _).
  split; [exact Hs|]. split; [exact He|]. apply Hbuy. reflexivity.
Defined.

Lemma emission_monotone_in_thresholds_witness :
  let strict : t nat :=
    {| volume_threshold := 60; imbalance_ratio_high := 3;
       imbalance_ratio_low := 1 # 4; spike_multiplier := 2;
       enable_logging := true; save_path := default_save_path;
       callbacks := [] |} in
  let loose : t nat := with_defaults default_save_path [] in
  is_Some (emitted (process_event dumps_text_fields strict 7 agg_balanced_burst ∅ 5%nat))
  ∧ is_Some (emitted (process_event dumps_text_fields loose 7 agg_balanced_burst ∅ 5%nat)).
Proof.
  intros strict loose.
  assert (Hs : is_Some (emitted (process_event dumps_text_fields strict 7
                                   agg_balanced_burst ∅ 5%nat)))
    by (eexists; reflexivity).
  split; [exact Hs|].
  apply (emission_monotone_in_thresholds dumps_text_fields loose strict 7
           agg_balanced_burst ∅ 5%nat);
    [vm_compute; discriminate | vm_compute; discriminate
    | vm_compute; discriminate | vm_compute; discriminate | exact Hs].
Defined.
End AnalyzerMoreExamples.

(** * Further properties of the runner *)

Lemma string_app_assoc (a b c : string) : (a +:+ b) +:+ c = a +:+ (b +:+ c).
Proof.
  induction a as [|x a IH]; [done|].
  change (String x ((a +:+ b) +:+ c) = String x (a +:+ (b +:+ c))).
  by rewrite IH.
Qed.

Lemma string_app_nil_r (a : string) : a +:+ EmptyString = a.
Proof.
  induction a as [|x a IH]; [done|].
  change (String x (a +:+ EmptyString) = String x a). by rewrite IH.
Qed.

Section PipelineMore.
Import TradeActivityAnalyzer AnalyzerSpec CombinedStreamRunner RunnerSpec PipelineSpec.
Variable json_dumps : SpikeData -> string.

Lemma deliver_aggregate_state (p : Pipeline) (fs : files) (agg : dict) (now : Q) :
  wired p →
  deliver json_dumps (TradeAggregated agg now) p fs
  = (set_runner p
       (if detects (activity_analyzer p) agg
        then set__last_activity_spike_ts (_handle_trade_aggregate (runner p) agg)
               (Some (default now (agg !! "ts")))
        else _handle_trade_aggregate (runner p) agg),
     if detects (activity_analyzer p) agg && truthy_str (save_path (activity_analyzer p))
     then open_a_write fs (save_path (activity_analyzer p))
            (json_dumps (spike_data (activity_analyzer p) now agg) +:+ newline)
     else fs,
     []).
Proof.
  intros Hw. rewrite (deliver_aggregate json_dumps) by done.
  rewrite analyzer_world by apply Hw. rewrite detects_emitted.
  destruct (detects (activity_analyzer p) agg) eqn:Hdet; simpl.
  - unfold detects in Hdet. apply andb_true_iff in Hdet as [Htot Hcond].
    apply negb_true_iff in Htot.
    by destruct (process_event_loud json_dumps (activity_analyzer p) now agg fs
                   (_handle_trade_aggregate (runner p) agg) Htot Hcond)
      as (_ & -> & _).
  - assert (Hq : emitted (process_event json_dumps (activity_analyzer p) now agg fs
                              (_handle_trade_aggregate (runner p) agg)) = None)
      by (by rewrite detects_emitted, Hdet).
    by rewrite (emitted_None_quiet _ _ _ _ _ _ Hq).
Qed.
Lemma run_inputs_audit (inputs : list input) (p : Pipeline) (fs : files) (c : string) :
  wired p → truthy_str (save_path (activity_analyzer p)) = true →
  fs !! save_path (activity_analyzer p) = Some c →
  (run_inputs json_dumps inputs p fs).1.2 !! save_path (activity_analyzer p)
  = Some (c +:+ audit_text json_dumps (activity_analyzer p) inputs).
Proof.
  revert p fs c. induction inputs as [|i rest IH]; intros p fs c Hw Hsave Hc.
  - simpl. by rewrite string_app_nil_r.
  - pose proof (deliver_same_wiring json_dumps i p fs Hw) as Hsw.
    simpl. destruct i as [ob now|agg now].
    + rewrite (deliver_orderbook json_dumps) in Hsw |- * by done.
      simpl in Hsw.
      specialize (IH (set_runner p (_handle_orderbook_update (runner p) ob now).1)
                    fs c (same_wiring_wired _ _ Hsw Hw) Hsave Hc).
      destruct (run_inputs json_dumps rest _ fs) as [[p2 fs2] tr2]. exact IH.
    + rewrite deliver_aggregate_state in Hsw |- * by done. rewrite Hsave, andb_true_r.
      simpl in Hsw.
      set (p1 := set_runner p _) in *. set (fs1 := if detects _ _ then _ else fs).
      assert (Hc1 : fs1 !! save_path (activity_analyzer p)
                    = Some (c +:+ (if detects (activity_analyzer p) agg
                                   then json_dumps (spike_data (activity_analyzer p) now agg)
                                        +:+ newline
                                   else EmptyString))).
      { subst fs1. destruct (detects (activity_analyzer p) agg).
        - by rewrite open_a_write_lookup, Hc.
        - by rewrite string_app_nil_r. }
      pose proof (IH p1 fs1 _ (same_wiring_wired _ _ Hsw Hw) Hsave Hc1) as IH1.
      destruct (run_inputs json_dumps rest p1 fs1) as [[p2 fs2] tr2]. simpl in *.
      by rewrite IH1, string_app_assoc.
Qed.

Lemma started_parts ctor (symbol : string) (model_path : option string) (fs : files) :
  let a0 : TradeActivityAnalyzer.t t :=
    (TradeActivityAnalyzer.init default_volume_threshold
       default_imbalance_ratio_high default_imbalance_ratio_low
       default_spike_multiplier false default_save_path fs).1 in
  activity_analyzer (started ctor symbol model_path fs).1
  = on_activity a0 activity_spike_callback
  ∧ (started ctor symbol model_path fs).2
    = (TradeActivityAnalyzer.init (W:=t) default_volume_threshold
         default_imbalance_ratio_high default_imbalance_ratio_low
         default_spike_multiplier false default_save_path fs).2.
Proof.
  unfold started, CombinedStreamRunner.init.
  destruct (TradeActivityAnalyzer.init _ _ _ _ _ _ _) as [an fs1].
  destruct model_path as [path|]; [destruct (truthy_str path);
    [destruct (ctor path)|]|];
    simpl; unfold run, _setup_callbacks; simpl; done.
Qed.

(** X9.  The audit log of a started runner is a record of the reported
    aggregates.  After any sequence of notifications the file
    [activity_spikes.jsonl] holds what it held when the runner was
    constructed, followed by one line for each delivered aggregate that the
    analyzer reports under the default thresholds, in the order of delivery;
    order-book updates add nothing to it. *)
Theorem audit_log_records_reported_aggregates ctor (symbol : string)
    (model_path : option string) (fs : files) (inputs : list input) :
  let s0 := started ctor symbol model_path fs in
  let out := run_inputs json_dumps inputs s0.1 s0.2 in
  out.1.2 !! default_save_path
  = Some (default EmptyString (fs !! default_save_path)
          +:+ audit_text json_dumps (activity_analyzer s0.1) inputs)
  ∧ volume_threshold (activity_analyzer s0.1) = 10
  ∧ imbalance_ratio_high (activity_analyzer s0.1) = 2
  ∧ imbalance_ratio_low (activity_analyzer s0.1) = 1 # 2
  ∧ spike_multiplier (activity_analyzer s0.1) = 6 # 5.
Proof.
  intros s0 out.
  pose proof (started_wired ctor symbol model_path fs) as Hw. fold s0 in Hw.
  destruct (started_parts ctor symbol model_path fs) as [Ha Hfs]. fold s0 in Ha, Hfs.
  pose proof (init_fields (W:=t) default_volume_threshold
                default_imbalance_ratio_high default_imbalance_ratio_low
                default_spike_multiplier false default_save_path fs)
    as (Hvt & Hhi & Hlo & Hmu & _ & Hsp & _).
  assert (Hsave : save_path (activity_analyzer s0.1) = default_save_path)
    by (by rewrite Ha).
  assert (Hc : s0.2 !! default_save_path
               = Some (default EmptyString (fs !! default_save_path))).
  { rewrite Hfs. unfold TradeActivityAnalyzer.init. simpl.
    unfold path_exists. destruct (fs !! default_save_path) as [c|] eqn:Hc.
    - rewrite bool_decide_eq_true_2 by eauto. simpl. by rewrite Hc.
    - rewrite bool_decide_eq_false_2 by (by intros [? ?]). simpl.
      unfold open_w. apply lookup_insert_eq. }
  pose proof (run_inputs_audit inputs s0.1 s0.2
                (default EmptyString (fs !! default_save_path)) Hw) as H1.
  rewrite Hsave in H1. specialize (H1 eq_refl Hc).
  fold out in H1.
  split; [exact H1|].
  rewrite Ha. simpl. by rewrite Hvt, Hhi, Hlo, Hmu.
Qed.

Lemma added_orderbook_events_app (tr1 tr2 : list action) :
  added_orderbook_events (tr1 ++ tr2)
  = added_orderbook_events tr1 ++ added_orderbook_events tr2.
Proof.
  induction tr1 as [|a tr1 IH]; [done|]. destruct a; simpl; by rewrite ?IH.
Qed.

Lemma handle_orderbook_update_count (self : t) (ob : RealTimeOrderBook) (now : Q) :
  length (added_orderbook_events (_handle_orderbook_update self ob now).2)
  = if truthy_opt (get_mid_price ob) then 1%nat else 0%nat.
Proof.
  destruct (get_mid_price ob) as [m|] eqn:Hm; simpl.
  - destruct (truthy m) eqn:Ht.
    + by rewrite (handle_orderbook_update_emit self ob now m Hm Ht).
    + by rewrite handle_orderbook_update_skip by (by rewrite Hm).
  - by rewrite handle_orderbook_update_skip by (by rewrite Hm).
Qed.

(** X10.  A started runner hands the merger one event for each order-book
    update whose mid price is truthy and none for anything else: the number
    of events passed to [add_orderbook] is the number of such updates among
    the notifications, whatever aggregates arrive in between. *)
Theorem one_event_per_forwarded_update ctor (symbol : string)
    (model_path : option string) (fs : files) (inputs : list input) :
  let s0 := started ctor symbol model_path fs in
  length (added_orderbook_events (run_inputs json_dumps inputs s0.1 s0.2).2)
  = length (List.filter forwarded inputs).
Proof.
  intros s0.
  pose proof (started_wired ctor symbol model_path fs) as Hw. fold s0 in Hw.
  generalize dependent (s0.2). generalize dependent (s0.1). clear s0.
  induction inputs as [|i rest IH]; intros p Hw fs0; [done|].
  pose proof (deliver_same_wiring json_dumps i p fs0 Hw) as Hsw.
  simpl. destruct i as [ob now|agg now].
  - rewrite (deliver_orderbook json_dumps) in Hsw |- * by done. simpl in Hsw.
    specialize (IH _ (same_wiring_wired _ _ Hsw Hw) fs0).
    destruct (run_inputs json_dumps rest _ fs0) as [[p2 fs2] tr2]. simpl in *.
    rewrite added_orderbook_events_app, length_app, handle_orderbook_update_count, IH.
    by destruct (truthy_opt (get_mid_price ob)).
  - rewrite deliver_aggregate_state in Hsw |- * by done. simpl in Hsw.
    set (p1 := set_runner p _) in *. set (fs1 := if _ && _ then _ else fs0).
    specialize (IH p1 (same_wiring_wired _ _ Hsw Hw) fs1).
    by destruct (run_inputs json_dumps rest p1 fs1) as [[p2 fs2] tr2].
Qed.

(** X11.  What an aggregate does to a started runner.  The aggregate is
    cached.  If the analyzer reports it, the runner's spike timestamp becomes
    the aggregate's own [ts], or the wall-clock time when the aggregate has
    none; otherwise the timestamp stays as it was.  Nothing is handed to the
    merger. *)
Theorem aggregate_stamps_runner (p : Pipeline) (fs : files) (agg : dict) (now : Q) :
  wired p →
  let out := deliver json_dumps (TradeAggregated agg now) p fs in
  _latest_trade_agg (runner out.1.1) = agg
  ∧ _last_activity_spike_ts (runner out.1.1)
    = (if detects (activity_analyzer p) agg
       then Some (default now (agg !! "ts"))
       else _last_activity_spike_ts (runner p))
  ∧ out.2 = []
  ∧ _running (runner out.1.1) = _running (runner p)
  ∧ model_runner (runner out.1.1) = model_runner (runner p).
Proof.
  intros Hw out. subst out. rewrite deliver_aggregate_state by done. simpl.
  by destruct (detects (activity_analyzer p) agg).
Qed.

Lemma orderbook_fields_dom (ob : RealTimeOrderBook) (m flag : Q) :
  dom (orderbook_fields ob m flag) = list_to_set base_keys.
Proof.
  unfold orderbook_fields, base_keys. destruct (get_imbalance ob) as [[imb bid] ask].
  rewrite !dom_insert_L, dom_empty_L. simpl. set_solver.
Qed.

Lemma orderbook_fields_values (ob : RealTimeOrderBook) (m flag : Q) :
  orderbook_fields ob m flag !! "imbalance" = Some (get_imbalance ob).1.1
  ∧ orderbook_fields ob m flag !! "bid_volume" = Some (get_imbalance ob).1.2
  ∧ orderbook_fields ob m flag !! "ask_volume" = Some (get_imbalance ob).2.
Proof. unfold orderbook_fields. by destruct (get_imbalance ob) as [[imb bid] ask]. Qed.

(** X12.  The shape of an order-book feature event.  It always has the six
    keys the handler writes; its keys are these, those of the near-price
    volumes and those of the cached aggregate.  A near-price entry is in the
    event unless the aggregate has the same key, and a key of the handler
    that neither dict has keeps the handler's value: [ts] is the book's last
    update time, [imbalance], [bid_volume] and [ask_volume] are the triple of
    [get_imbalance()]. *)
Theorem event_keys_and_precedence (self : t) (ob : RealTimeOrderBook) (now : Q)
    (ev : dict) :
  MergerAddOrderbook ev ∈ (_handle_orderbook_update self ob now).2 →
  (∀ k, k ∈ base_keys → is_Some (ev !! k))
  ∧ dom ev = list_to_set base_keys ∪ dom (get_near_price_volume ob)
             ∪ dom (_latest_trade_agg self)
  ∧ (∀ k v, get_near_price_volume ob !! k = Some v →
            _latest_trade_agg self !! k = None → ev !! k = Some v)
  ∧ (∀ k, get_near_price_volume ob !! k = None →
          _latest_trade_agg self !! k = None →
          (k = "ts" → ev !! k = Some (last_update_ts ob))
          ∧ (k = "imbalance" → ev !! k = Some (get_imbalance ob).1.1)
          ∧ (k = "bid_volume" → ev !! k = Some (get_imbalance ob).1.2)
          ∧ (k = "ask_volume" → ev !! k = Some (get_imbalance ob).2)
          ∧ (k ∉ base_keys → ev !! k = None)).
Proof.
  intros Hev.
  apply handle_orderbook_update_events in Hev as (m & Hm & Ht & [= ->]).
  set (flag := if recent_spike self now then 1 else 0).
  assert (Hdom : dom (dict_update
                        (dict_update (orderbook_fields ob m flag)
                           (get_near_price_volume ob))
                        (_latest_trade_agg self))
                 = list_to_set base_keys ∪ dom (get_near_price_volume ob)
                   ∪ dom (_latest_trade_agg self)).
  { unfold dict_update. rewrite !dom_union_L, orderbook_fields_dom.
    apply set_eq. intros x. rewrite !elem_of_union. tauto. }
  split_and!.
  - intros k Hk. apply elem_of_dom. rewrite Hdom.
    apply elem_of_union. left. apply elem_of_union. left.
    by apply elem_of_list_to_set.
  - exact Hdom.
  - intros k v Hnpv Hagg. by rewrite !dict_update_lookup, Hagg, Hnpv.
  - intros k Hnpv Hagg. rewrite !dict_update_lookup, Hagg, Hnpv.
    destruct (orderbook_fields_values ob m flag) as (Hi & Hb & Ha).
    split_and!; try (by intros ->); [by intros ->; apply orderbook_fields_ts|].
    intros Hk. apply not_elem_of_dom. rewrite orderbook_fields_dom.
    by rewrite elem_of_list_to_set.
Qed.

(** X13.  The update handler changes nothing of the runner but the spike
    timestamp, which it keeps or resets to [None]; it does not touch the
    cached aggregate, the running flag, the tasks or the model.  When it
    returns early on a falsy mid price, the runner is left as it is: an
    expired timestamp is not cleared by such an update. *)
Theorem orderbook_update_changes_only_spike_stamp (self : t)
    (ob : RealTimeOrderBook) (now : Q) :
  let self1 := (_handle_orderbook_update self ob now).1 in
  symbol self1 = symbol self
  ∧ tasks self1 = tasks self
  ∧ _running self1 = _running self
  ∧ model_runner self1 = model_runner self
  ∧ _activity_spike_ttl self1 = _activity_spike_ttl self
  ∧ _latest_trade_agg self1 = _latest_trade_agg self
  ∧ (_last_activity_spike_ts self1
     = if truthy_opt (get_mid_price ob) && negb (recent_spike self now)
       then None else _last_activity_spike_ts self)
  ∧ (truthy_opt (get_mid_price ob) = false → self1 = self).
Proof.
  intros self1. subst self1.
  destruct (get_mid_price ob) as [m|] eqn:Hm; simpl.
  - destruct (truthy m) eqn:Ht; simpl.
    + rewrite (handle_orderbook_update_emit self ob now m Hm Ht). simpl.
      destruct (recent_spike self now); by split_and!.
    + rewrite handle_orderbook_update_skip by (by rewrite Hm). by split_and!.
  - rewrite handle_orderbook_update_skip by (by rewrite Hm). by split_and!.
Qed.

Lemma run_not_running (p : Pipeline) :
  _running (runner p) = false →
  let p1 := (run p).1 in
  _running (runner p1) = true
  ∧ tasks (runner p1)
    = [ {| coro := Orderbook |}; {| coro := Trades |}; {| coro := Merger |} ]
  ∧ callbacks (activity_analyzer p1)
    = callbacks (activity_analyzer p) ++ [activity_spike_callback]
  ∧ orderbook_on_update p1
    = orderbook_on_update p
      ++ [handle_orderbook_update; signal_detector_process_orderbook]
  ∧ trades_on_trade_aggregate p1
    = trades_on_trade_aggregate p
      ++ [handle_trade_aggregate; activity_analyzer_process_event]
  ∧ trades_on_raw_trade p1 = trades_on_raw_trade p ++ [merger_add_trade]
  ∧ signal_detector_on_signal p1 = signal_detector_on_signal p ++ [handle_signal]
  ∧ merger_on_merge p1
    = merger_on_merge p
      ++ (match model_runner (runner p) with
          | Some _ => [handle_inference]
          | None => []
          end)
  ∧ model_runner (runner p1) = model_runner (runner p)
  ∧ _latest_trade_agg (runner p1) = _latest_trade_agg (runner p)
  ∧ _last_activity_spike_ts (runner p1) = _last_activity_spike_ts (runner p).
Proof.
  intros Hr. unfold run. rewrite Hr. unfold _setup_callbacks. simpl.
  destruct (model_runner (runner p)) eqn:Hmr; simpl.
  - rewrite <- ?app_assoc, ?app_nil_r. by split_and!.
  - rewrite <- ?app_assoc, ?app_nil_r. by split_and!.
Qed.

(** X14.  [run] on a runner that is already running does nothing but log a
    warning: no handler is registered again and no task is created.  A first
    [run] sets the running flag and creates the three tasks, for the order
    book, the trades stream and the merger, in this order. *)
Theorem run_twice_is_noop (p : Pipeline) :
  _running (runner p) = false →
  run (run p).1 = ((run p).1, [Log WARNING "Runner is already running."])
  ∧ _running (runner (run p).1) = true
  ∧ tasks (runner (run p).1)
    = [ {| coro := Orderbook |}; {| coro := Trades |}; {| coro := Merger |} ]
  ∧ (run p).2 !! 0%nat
    = Some (Log INFO "Stream callbacks configured to feed the merger and analyzers.").
Proof.
  intros Hr. destruct (run_not_running p Hr) as (Hrun & Htasks & _).
  split_and!; [|done|done|].
  - unfold run at 1. by rewrite Hrun.
  - unfold run. rewrite Hr. unfold _setup_callbacks.
    by destruct (model_runner (runner (set_runner p (set__running (runner p) true)))).
Qed.

(** X15.  Starting a stopped runner again registers every handler a second
    time, because [run] calls [_setup_callbacks] on each start and [stop]
    removes nothing.  After run, stop, run the analyzer holds the runner's
    callback twice and each component's observer list holds the runner's
    handlers twice; a single order-book update with a truthy mid price is
    then handed to the merger twice. *)
Theorem restart_registers_handlers_twice (p : Pipeline) (merger_stop : cb_result)
    (task_done : nat → bool) (fs : files) (ob : RealTimeOrderBook) (now m : Q) :
  _running (runner p) = false →
  callbacks (activity_analyzer p) = [] →
  orderbook_on_update p = [] →
  get_mid_price ob = Some m → truthy m = true →
  let p3 := (run (stop_pipeline (run p).1 merger_stop task_done)).1 in
  callbacks (activity_analyzer p3) = [activity_spike_callback; activity_spike_callback]
  ∧ orderbook_on_update p3
    = [handle_orderbook_update; signal_detector_process_orderbook;
       handle_orderbook_update; signal_detector_process_orderbook]
  ∧ _running (runner p3) = true
  ∧ length (added_orderbook_events
              (deliver json_dumps (OrderbookUpdated ob now) p3 fs).2) = 2%nat.
Proof.
  intros Hr Hcb Hob Hm Ht p3.
  destruct (run_not_running p Hr) as (Hr1 & _ & Hcb1 & Hob1 & _).
  set (p1 := (run p).1) in *.
  assert (Hr2 : _running (runner (stop_pipeline p1 merger_stop task_done)) = false).
  { unfold stop_pipeline. simpl. unfold stop. rewrite Hr1. simpl.
    by destruct merger_stop. }
  destruct (run_not_running _ Hr2) as (Hr3 & _ & Hcb3 & Hob3 & _).
  fold p3 in Hr3, Hcb3, Hob3.
  unfold stop_pipeline in Hcb3, Hob3. simpl in Hcb3, Hob3.
  rewrite Hcb1, Hcb in Hcb3. rewrite Hob1, Hob in Hob3. simpl in Hcb3, Hob3.
  split_and!; [done|done|done|].
  unfold deliver. rewrite Hob3. simpl.
  rewrite (handle_orderbook_update_emit (runner p3) ob now m Hm Ht). simpl.
  rewrite (handle_orderbook_update_emit _ ob now m Hm Ht). simpl. done.
Qed.

(** X16.  Where the reported spike meets the order book.  When a wired
    runner receives an aggregate that the analyzer reports and then an
    order-book update with a truthy mid price, the event of that update has
    [activity_spike = 1] exactly when the wall-clock time of the update is
    less than the TTL after the aggregate's own [ts] (after the wall-clock
    time of the aggregate's delivery when it has no [ts]); this for a
    timestamp that is not zero, an aggregate and near-price volumes without a
    key [activity_spike]. *)
Theorem reported_aggregate_raises_flag (p : Pipeline) (fs : files) (agg : dict)
    (now now' m : Q) (ob : RealTimeOrderBook) :
  wired p →
  detects (activity_analyzer p) agg = true →
  ¬ default now (agg !! "ts") == 0 →
  agg !! "activity_spike" = None →
  get_near_price_volume ob !! "activity_spike" = None →
  get_mid_price ob = Some m → truthy m = true →
  let s1 := (deliver json_dumps (TradeAggregated agg now) p fs).1 in
  let out := deliver json_dumps (OrderbookUpdated ob now') s1.1 s1.2 in
  field_of_events "activity_spike" out.2
  = [Some (if Qltb (now' - default now (agg !! "ts")) (_activity_spike_ttl (runner p))
           then 1 else 0)].
Proof.
  intros Hw Hdet Hz Hagg Hnpv Hm Ht s1 out.
  pose proof (deliver_same_wiring json_dumps (TradeAggregated agg now) p fs Hw) as Hsw.
  fold s1 in Hsw. pose proof (same_wiring_wired _ _ Hsw Hw) as Hw1.
  subst out. rewrite (deliver_orderbook json_dumps) by done. simpl.
  rewrite (handle_orderbook_update_emit _ ob now' m Hm Ht). simpl.
  unfold field_of_events. simpl. f_equal.
  subst s1. rewrite deliver_aggregate_state by done. rewrite Hdet. simpl.
  rewrite !dict_update_lookup. simpl. rewrite Hagg, Hnpv.
  rewrite orderbook_fields_activity_spike. unfold recent_spike. simpl.
  apply truthy_true in Hz. by rewrite Hz.
Qed.

(** X18.  [_handle_inference] with a model loaded calls [predict] once, on
    the merged record, before anything else.  A failed prediction is logged
    as a warning and never raises.  A successful prediction is logged with
    the record's [ts]: on a record without a key [ts] the handler raises
    after the prediction was made. *)
Theorem inference_predicts_once (self : t) (mr : ModelRunner) (merged_record : dict) :
  model_runner self = Some mr →
  let out := _handle_inference self merged_record in
  out.1 !! 0%nat = Some (Predict merged_record)
  ∧ (∀ k r, out.1 !! k = Some (Predict r) → k = 0%nat)
  ∧ (out.2 = Raises
     ↔ (∃ dir conf, predict mr merged_record = PredOk dir conf)
       ∧ merged_record !! "ts" = None)
  ∧ (∀ e, predict mr merged_record = PredError e →
          out = ([Predict merged_record; Log WARNING "PREDICTION FAILED"], Returns)).
Proof.
  intros Hmr out. subst out. unfold _handle_inference. rewrite Hmr.
  destruct (predict mr merged_record) as [dir conf|e] eqn:Hp.
  - destruct (merged_record !! "ts") as [ts|] eqn:Hts; simpl; split_and!; try done.
    + intros [|[|k]] r Hk; done.
    + split; [done|]. by intros [_ ?].
    + intros [|k] r Hk; done.
    + split; [|done]. intros _. split; [eauto|done].
  - simpl. split_and!; try done.
    + intros [|[|k]] r Hk; done.
    + split; [done|]. by intros [(? & ? & ?) _].
Qed.

(** X23.  [stop] changes nothing of the runner but the running flag, and it
    clears the flag before it awaits anything.  So when the merger's [stop]
    raises, the runner is left marked as stopped with its tasks not
    cancelled, and a later [stop] returns at once: no call cancels them. *)
Theorem stop_changes_only_running_flag (self : t) (ms : cb_result) (td : nat → bool) :
  let self1 := (stop self ms td).1.1 in
  _running self1 = false
  ∧ symbol self1 = symbol self
  ∧ tasks self1 = tasks self
  ∧ model_runner self1 = model_runner self
  ∧ _latest_trade_agg self1 = _latest_trade_agg self
  ∧ _last_activity_spike_ts self1 = _last_activity_spike_ts self
  ∧ _activity_spike_ttl self1 = _activity_spike_ttl self
  ∧ (_running self = true → ms = Raises →
     (stop self ms td).2 = Raises
     ∧ (∀ i, Cancel i ∉ (stop self ms td).1.2)
     ∧ ∀ ms' td', (stop self1 ms' td').1.2 = []).
Proof.
  intros self1. subst self1.
  destruct (_running self) eqn:Hr.
  - rewrite (stop_trace self ms td Hr). simpl. split_and!; try done.
    intros _ ->. split_and!; [done| |].
    + intros i Hin. repeat (apply elem_of_cons in Hin as [[=]|Hin]).
      by apply elem_of_nil in Hin.
    + intros ms' td'. unfold stop. done.
  - unfold stop. rewrite Hr. simpl. by split_and!.
Qed.

End PipelineMore.

Section RunnerMoreExamples.
Import TradeActivityAnalyzer AnalyzerSpec CombinedStreamRunner RunnerSpec PipelineSpec.

Lemma aggregate_stamps_runner_witness :
  let p := (started failing_loader "btcusdt" None ∅).1 in
  wired p
  ∧ _last_activity_spike_ts
      (runner (deliver dumps_text_fields (TradeAggregated agg_balanced_burst 7) p ∅).1.1)
    = Some 1000
  ∧ _last_activity_spike_ts
      (runner (deliver dumps_text_fields (TradeAggregated agg_window 7) p ∅).1.1)
    = None.
Proof.
  intros p.
  pose proof (started_wired failing_loader "btcusdt" None ∅) as Hw. fold p in Hw.
  destruct (aggregate_stamps_runner dumps_text_fields p ∅ agg_balanced_burst 7 Hw)
    as (_ & H1 & _).
  destruct (aggregate_stamps_runner dumps_text_fields p ∅ agg_window 7 Hw)
    as (_ & H2 & _).
  split; [exact Hw|]. split.
  - rewrite H1. reflexivity.
  - rewrite H2. reflexivity.
Defined.

Lemma event_keys_and_precedence_witness :
  let self := set__latest_trade_agg new_runner agg_window in
  let ob := book (Some 100) 5 in
  let ev := dict_update
              (dict_update (orderbook_fields ob 100 0) (get_near_price_volume ob))
              agg_window in
  MergerAddOrderbook ev ∈ (_handle_orderbook_update self ob 1001).2
  ∧ ev !! "bid_volume_near" = Some 12
  ∧ ev !! "imbalance" = Some (1 # 5).
Proof.
  intros self ob ev.
  assert (Hin : MergerAddOrderbook ev ∈ (_handle_orderbook_update self ob 1001).2).
  { rewrite (handle_orderbook_update_emit self ob 1001 100 eq_refl eq_refl).
    apply list_elem_of_singleton. reflexivity. }
  destruct (event_keys_and_precedence self ob 1001 ev Hin) as (_ & _ & Hnpv & Hown).
  split; [exact Hin|]. split.
  - apply Hnpv; reflexivity.
  - destruct (Hown "imbalance" ltac:(reflexivity) ltac:(reflexivity))
      as (_ & Hi & _).
    apply Hi. reflexivity.
Defined.

Lemma run_twice_is_noop_witness :
  let p := (init failing_loader "btcusdt" None ∅).1.1 in
  _running (runner p) = false
  ∧ (run (run p).1).2 = [Log WARNING "Runner is already running."].
Proof.
  intros p.
  destruct (run_twice_is_noop p eq_refl) as (H & _).
  split; [reflexivity|]. rewrite H. reflexivity.
Defined.

Lemma restart_registers_handlers_twice_witness :
  let p := (init failing_loader "btcusdt" None ∅).1.1 in
  let p3 := (run (stop_pipeline (run p).1 Returns (fun _ => false))).1 in
  _running (runner p) = false
  ∧ length (added_orderbook_events
              (deliver dumps_text_fields (OrderbookUpdated (book (Some 100) 5) 1001)
                 p3 ∅).2) = 2%nat
  ∧ length (added_orderbook_events
              (deliver dumps_text_fields (OrderbookUpdated (book (Some 100) 5) 1001)
                 (run p).1 ∅).2) = 1%nat.
Proof.
  intros p p3.
  destruct (restart_registers_handlers_twice dumps_text_fields p Returns
              (fun _ => false) ∅ (book (Some 100) 5) 1001 100
              eq_refl eq_refl eq_refl eq_refl eq_refl) as (_ & _ & _ & H).
  split; [reflexivity|]. split; [exact H|]. reflexivity.
Defined.

Lemma reported_aggregate_raises_flag_witness :
  let p := (started failing_loader "btcusdt" None ∅).1 in
  let s1 := (deliver dumps_text_fields (TradeAggregated agg_balanced_burst 7) p ∅).1 in
  wired p
  ∧ detects (activity_analyzer p) agg_balanced_burst = true
  ∧ field_of_events "activity_spike"
      (deliver dumps_text_fields (OrderbookUpdated (book (Some 100) 5) (2001 # 2))
         s1.1 s1.2).2
    = [Some 1].
Proof.
  intros p s1.
  pose proof (started_wired failing_loader "btcusdt" None ∅) as Hw. fold p in Hw.
  assert (Hdet : detects (activity_analyzer p) agg_balanced_burst = true)
    by reflexivity.
  assert (Hz : ¬ default 7 (agg_balanced_burst !! "ts") == 0)
    by (vm_compute; discriminate).
  assert (Hagg : agg_balanced_burst !! "activity_spike" = None) by reflexivity.
  assert (Hnpv : get_near_price_volume (book (Some 100) 5) !! "activity_spike" = None)
    by reflexivity.
  pose proof (reported_aggregate_raises_flag dumps_text_fields p ∅
                agg_balanced_burst 7 (2001 # 2) 100 (book (Some 100) 5)
                Hw Hdet Hz Hagg Hnpv eq_refl eq_refl) as H.
  split; [exact Hw|]. split; [exact Hdet|]. fold s1 in H. rewrite H. reflexivity.
Defined.

Lemma inference_predicts_once_witness :
  let self := set_model_runner new_runner (Some constant_model) in
  model_runner self = Some constant_model
  ∧ (_handle_inference self ∅).2 = Raises
  ∧ (_handle_inference self agg_window).2 = Returns.
Proof.
  intros self.
  destruct (inference_predicts_once self constant_model ∅ eq_refl)
    as (_ & _ & [_ Hraise] & _).
  split; [reflexivity|]. split; [|reflexivity].
  apply Hraise. split; [|reflexivity]. by exists "up", (3 # 4).
Defined.
End RunnerMoreExamples.

(** * The training and data-check scripts *)

Section ScriptFacts.
Import TrainTempModel.

Lemma max_from_first_maximum {A} (key : A → Q) (rest seen_pre seen_post : list A)
    (best : A) :
  (∀ g, g ∈ seen_pre → key g < key best) →
  (∀ g, g ∈ seen_post → key g <= key best) →
  ∃ pre post,
    seen_pre ++ best :: seen_post ++ rest = pre ++ max_from key best rest :: post
    ∧ (∀ g, g ∈ pre → key g < key (max_from key best rest))
    ∧ (∀ g, g ∈ post → key g <= key (max_from key best rest)).
Proof.
  revert seen_pre seen_post best.
  induction rest as [|y rest IH]; intros seen_pre seen_post best Hpre Hpost; simpl.
  - exists seen_pre, seen_post. by rewrite app_nil_r.
  - destruct (Qgtb (key y) (key best)) eqn:Hgt.
    + apply Qgtb_true in Hgt.
      destruct (IH (seen_pre ++ best :: seen_post) [] y) as (pre & post & Heq & H1 & H2).
      * intros g Hg. apply elem_of_app in Hg as [Hg|Hg].
        -- specialize (Hpre g Hg). lra.
        -- apply elem_of_cons in Hg as [->|Hg]; [done|].
           specialize (Hpost g Hg). lra.
      * intros g Hg. by apply elem_of_nil in Hg.
      * exists pre, post. split; [|done].
        rewrite <- Heq. simpl. by rewrite <- !app_assoc.
    + apply Qgtb_false in Hgt.
      destruct (IH seen_pre (seen_post ++ [y]) best) as (pre & post & Heq & H1 & H2).
      * done.
      * intros g Hg. apply elem_of_app in Hg as [Hg|Hg]; [by apply Hpost|].
        by apply list_elem_of_singleton in Hg as ->.
      * exists pre, post. split; [|done].
        rewrite <- Heq. by rewrite <- !app_assoc.
Qed.

(** X19.  [find_latest_file] returns [None] exactly when no file matches the
    pattern.  Otherwise it returns a matching file of the greatest creation
    time, and among several of them the first in the order of [glob]: every
    match before the result is strictly older, every match after it is not
    newer. *)
Theorem find_latest_file_first_newest (glob : string → list string)
    (getctime : string → Q) (path_join : string → string → string)
    (directory : string) :
  let files := glob (path_join directory "*.parquet") in
  (find_latest_file glob getctime path_join directory = None ↔ files = [])
  ∧ ∀ f, find_latest_file glob getctime path_join directory = Some f →
      ∃ pre post, files = pre ++ f :: post
                  ∧ (∀ g, g ∈ pre → getctime g < getctime f)
                  ∧ (∀ g, g ∈ post → getctime g <= getctime f).
Proof.
  intros files. subst files. unfold find_latest_file.
  destruct (glob (path_join directory "*.parquet")) as [|first rest]; split.
  - done.
  - intros f [=].
  - split; done.
  - intros f [= <-].
    destruct (max_from_first_maximum getctime rest [] [] first) as (pre & post & Heq & H).
    + intros g Hg. by apply elem_of_nil in Hg.
    + intros g Hg. by apply elem_of_nil in Hg.
    + exists pre, post. split; [exact Heq | exact H].
Qed.


End ScriptFacts.

Section CheckDataFacts.
Import TrainTempModel CheckData.
Variable DataFrame : Type.
Variable glob : string -> list string.
Variable getctime : string -> string + Q.
Variable read_parquet : string -> string + DataFrame.
Variable df_columns : DataFrame -> list string.
Variable head_to_markdown : DataFrame -> option (list string) -> string + string.

Let check := check_latest_datafile DataFrame glob getctime read_parquet
               df_columns head_to_markdown.



Lemma check_shape_loaded (first latest : string) (rest : list string) (df : DataFrame) :
  glob "data/merged/*.parquet" = first :: rest →
  max_checked getctime first rest = inr latest →
  read_parquet latest = inr df →
  check.2 = Returned
  ∧ ∃ tail, check.1 = [Analyzing latest;
                       Columns (length (df_columns df)) (df_columns df);
                       feature_report (df_columns df)] ++ tail
            ∧ (∀ o, o ∈ tail → is_tail_output o)
            ∧ (∀ k e, tail !! k = Some (ErrorMessage e) → S k = length tail).
Proof.
  intros Hglob Hmax Hread. subst check. unfold check_latest_datafile, feature_report.
  rewrite Hglob, Hmax, Hread. cbv zeta.
  destruct (List.filter (fun f => negb (bool_decide (f ∈ df_columns df))) new_features)
    as [|f0 fs0];
  destruct (head_to_markdown df None) as [e|md].
  all: try (split; [done|]; exists [ErrorMessage e]; split; [done|]; split;
            [intros o Ho; by apply list_elem_of_singleton in Ho as ->
            |intros [|k] e' Hk; done]).
  all: destruct (List.filter (fun c => bool_decide (c ∈ df_columns df)) check_cols)
         as [|c cols] eqn:Hcols.
  all: try (split; [done|]; exists [Table md; NoColumnsToCheck]; split; [done|]; split;
            [intros o Ho; repeat (apply elem_of_cons in Ho as [->|Ho]; [done|]);
             by apply elem_of_nil in Ho
            |intros [|[|k]] e' Hk; done]).
  all: destruct (head_to_markdown df (Some (c :: cols))) as [e|md2].
  all: try (split; [done|]; exists [Table md; ErrorMessage e]; split; [done|]; split;
            [intros o Ho; repeat (apply elem_of_cons in Ho as [->|Ho]; [done|]);
             by apply elem_of_nil in Ho
            |intros [|[|k]] e' Hk; done]).
  all: split; [done|]; exists [Table md; Table md2]; split; [done|]; split;
         [intros o Ho; repeat (apply elem_of_cons in Ho as [->|Ho]; [done|]);
          by apply elem_of_nil in Ho
         |intros [|[|k]] e' Hk; done].
Qed.


(** X22.  The report on the new features.  For a file that is selected and
    read, the
    script prints that all features are present exactly when each of the five
    new features is a column; otherwise it prints the missing ones, which are
    the new features that are not columns, in the order of the script's
    list. *)
Theorem check_reports_missing_features (first latest : string)
    (rest : list string) (df : DataFrame) :
  glob "data/merged/*.parquet" = first :: rest →
  max_checked getctime first rest = inr latest →
  read_parquet latest = inr df →
  check.1 !! 1%nat = Some (Columns (length (df_columns df)) (df_columns df))
  ∧ (AllFeaturesPresent ∈ check.1 ↔ ∀ f, f ∈ new_features → f ∈ df_columns df)
  ∧ (∀ l, MissingFeatures l ∈ check.1 →
          l ≠ [] ∧ sublist l new_features
          ∧ ∀ f, f ∈ l ↔ f ∈ new_features ∧ f ∉ df_columns df).
Proof.
  intros Hg Hmax Hread.
  destruct (check_shape_loaded first latest rest df Hg Hmax Hread)
    as (_ & tail & Hout & Htail & _).
  rewrite Hout.
  set (missing := List.filter (fun f => negb (bool_decide (f ∈ df_columns df)))
                    new_features).
  assert (Hmiss : ∀ f, f ∈ missing ↔ f ∈ new_features ∧ f ∉ df_columns df).
  { intros f. subst missing. rewrite list_elem_of_In, filter_In, <- list_elem_of_In.
    rewrite negb_true_iff, bool_decide_eq_false. done. }
  assert (Hrep : feature_report (df_columns df)
                 = match missing with
                   | [] => AllFeaturesPresent
                   | f :: fs => MissingFeatures (f :: fs)
                   end) by done.
  split; [done|]. split.
  - split.
    + intros Hin. repeat (apply elem_of_cons in Hin as [Heq|Hin]; [try done|]).
      * rewrite Hrep in Heq. destruct missing as [|f0 fs] eqn:Hm; [|done].
        intros f Hf. destruct (decide (f ∈ df_columns df)) as [|Hn]; [done|].
        assert (f ∈ ([] : list string)) as Hbad by (by apply Hmiss).
        by apply elem_of_nil in Hbad.
      * apply Htail in Hin. done.
    + intros Hall. do 2 (apply elem_of_cons; right). apply elem_of_cons. left.
      rewrite Hrep. destruct missing as [|f0 fs] eqn:Hm; [done|].
      assert (f0 ∈ f0 :: fs) as Hin by (apply elem_of_cons; by left).
      apply Hmiss in Hin as [Hnew Hnot]. by destruct Hnot; apply Hall.
  - intros l Hin. repeat (apply elem_of_cons in Hin as [Heq|Hin]; [try done|]).
    + rewrite Hrep in Heq. destruct missing as [|f0 fs] eqn:Hm; [done|].
      injection Heq as ->. split; [done|]. split; [|exact Hmiss].
      rewrite <- Hm. subst missing. clear. induction new_features as [|x xs IH]; simpl.
      * done.
      * destruct (negb (bool_decide (x ∈ df_columns df))).
        -- by apply sublist_skip.
        -- by apply sublist_cons.
    + apply Htail in Hin. done.
Qed.
End CheckDataFacts.

Section ScriptExamplesFacts.
Import TrainTempModel CheckData ScriptExamples.

Example find_latest_file_newest :
  find_latest_file two_files b_is_newer (fun d f => d +:+ f) "data/merged/"
  = Some "data/merged/b.parquet".
Proof. reflexivity. Qed.

(** A creation time that cannot be read is reported, and nothing else. *)
Example unreadable_ctime_reported :
  check_latest_datafile (list string) two_files a_is_gone read_frame id render
  = ([ErrorMessage "No such file"], Returned).
Proof. reflexivity. Qed.

Lemma check_reports_missing_features_witness :
  two_files "data/merged/*.parquet"
  = ["data/merged/a.parquet"; "data/merged/b.parquet"]
  ∧ MissingFeatures ["buy_vol_speed"; "sell_vol_speed"]
    ∈ (check_latest_datafile (list string) two_files b_is_newer_checked read_frame
         id render).1
  ∧ ¬ AllFeaturesPresent
      ∈ (check_latest_datafile (list string) two_files b_is_newer_checked read_frame
           id render).1.
Proof.
  destruct (check_reports_missing_features (list string) two_files
              b_is_newer_checked read_frame id render "data/merged/a.parquet"
              "data/merged/b.parquet" ["data/merged/b.parquet"]
              frame_columns eq_refl eq_refl eq_refl) as (_ & Hall & _).
  split; [reflexivity|]. split.
  - do 2 (apply elem_of_cons; right). apply elem_of_cons. left. reflexivity.
  - intros Hin. destruct Hall as [Hall _].
    pose proof (Hall Hin "buy_vol_speed"
                  ltac:(do 3 (apply elem_of_cons; right); apply elem_of_cons; by left))
      as Hcol.
    clear Hin Hall. rename Hcol into Hin.
    unfold id, frame_columns in Hin.
    repeat (apply elem_of_cons in Hin as [Hin|Hin]; [discriminate Hin|]).
    by apply elem_of_nil in Hin.
Defined.
End ScriptExamplesFacts.
